(** * Exchange adapters of the trading bot: Poloniex (src/unnamed/part_000)
    and Binance (src/exchange/wrappers/binance.js).

    A shallow embedding of the response classification, of the callback
    chains built on the retry wrapper, and of the order, cancel, portfolio
    and rounding operations.  Callback-style operations are modelled as the
    trace of observable events they produce (exchange requests, timers,
    callback invocations, exceptions). *)

From Stdlib Require Import SpecFloat.
From Stdlib Require Import String Ascii ZArith QArith Qround Qabs List Bool Lia.
Import ListNotations.
Open Scope string_scope.
Set Warnings "-register-all".

(** ** JavaScript values *)

(** JS numbers: rationals for the finite values, plus NaN.  Floating point
    rounding is not modelled here; the infinities (only produced by [x / 0]
    with [x <> 0]) are folded into [NaN].  Binance's rounding code, whose
    behaviour depends on the binary representation, is modelled over the
    IEEE-754 doubles below instead. *)
Inductive num :=
| NaN
| Num (q : Q).

(** Values as they come out of JSON.parse, plus undefined. *)
Inductive jsval :=
| JUndef
| JNull
| JBool (b : bool)
| JNum (n : num)
| JStr (s : string)
| JArr (xs : list jsval)
| JObj (kvs : list (string * jsval)).

Definition num_is_nan (n : num) : bool :=
  match n with NaN => true | Num _ => false end.

Definition num_sub (a b : num) : num :=
  match a, b with Num x, Num y => Num (x - y) | _, _ => NaN end.
Definition num_mul (a b : num) : num :=
  match a, b with Num x, Num y => Num (x * y) | _, _ => NaN end.

(** JS truthiness. *)
Definition truthy (v : jsval) : bool :=
  match v with
  | JUndef | JNull => false
  | JBool b => b
  | JNum NaN => false
  | JNum (Num q) => negb (Qeq_bool q 0)
  | JStr s => negb (String.eqb s "")
  | JArr _ | JObj _ => true
  end.

(** Property read [v.k].  Objects keep the last binding of a key, as
    JSON.parse does; arrays and strings expose [length].  Every call site
    below reads properties of a truthy value only. *)
Definition prop (v : jsval) (k : string) : jsval :=
  match v with
  | JObj kvs =>
      fold_left (fun acc kv => if String.eqb (fst kv) k then snd kv else acc)
        kvs JUndef
  | JArr xs =>
      if String.eqb k "length" then JNum (Num (inject_Z (Z.of_nat (length xs))))
      else JUndef
  | JStr s =>
      if String.eqb k "length" then JNum (Num (inject_Z (Z.of_nat (String.length s))))
      else JUndef
  | _ => JUndef
  end.

(** Strict equality [===] on primitives; two object values are taken to be
    distinct references. *)
Definition strict_eq (a b : jsval) : bool :=
  match a, b with
  | JUndef, JUndef | JNull, JNull => true
  | JBool x, JBool y => Bool.eqb x y
  | JNum (Num x), JNum (Num y) => Qeq_bool x y
  | JStr x, JStr y => String.eqb x y
  | _, _ => false
  end.

(** The elements lodash iterates over in [_.find], [_.each] and [_.last]:
    array elements, object values, the characters of a string. *)
Fixpoint string_chars (s : string) : list jsval :=
  match s with
  | EmptyString => []
  | String c s' => JStr (String c EmptyString) :: string_chars s'
  end.

Definition collection (v : jsval) : list jsval :=
  match v with
  | JArr xs => xs
  | JObj kvs => map snd kvs
  | JStr s => string_chars s
  | _ => []
  end.

(** [_.find(coll, p)]: the first element satisfying [p], or undefined. *)
Definition lodash_find (p : jsval -> bool) (coll : jsval) : jsval :=
  match find p (collection coll) with Some x => x | None => JUndef end.

(** [_.last(coll)]. *)
Definition lodash_last (coll : jsval) : jsval :=
  last (collection coll) JUndef.

(** [_.find(xs, x => eqf(x[key], v))]: [Some JUndef] when nothing matches;
    [None] when reading [x[key]] throws, on an undefined or null element. *)
Fixpoint find_by (eqf : jsval -> jsval -> bool) (key : string) (v : jsval)
  (xs : list jsval) : option jsval :=
  match xs with
  | [] => Some JUndef
  | x :: xs' =>
      match x with
      | JUndef | JNull => None
      | _ => if eqf (prop x key) v then Some x else find_by eqf key v xs'
      end
  end.

(** An element [_.find(xs, x => eqf(x[key], v))] passes over: neither
    undefined nor null, and not matching. *)
Definition skipped (eqf : jsval -> jsval -> bool) (key : string) (v : jsval) (x : jsval) : Prop :=
  x <> JUndef /\ x <> JNull /\ eqf (prop x key) v = false.

(** ** Strings *)

Fixpoint prefixb (p s : string) : bool :=
  match p, s with
  | EmptyString, _ => true
  | String a p', String b s' => Ascii.eqb a b && prefixb p' s'
  | String _ _, EmptyString => false
  end.

(** [s.includes(p)]. *)
Fixpoint str_includes (s p : string) : bool :=
  prefixb p s ||
  match s with
  | EmptyString => false
  | String _ s' => str_includes s' p
  end.

(** ** Number to string and string to number (decimal notation) *)

Definition digit_char (d : Z) : ascii := ascii_of_nat (48 + Z.to_nat d).

Fixpoint digits_aux (fuel : nat) (n : Z) (acc : string) : string :=
  match fuel with
  | O => acc
  | S f =>
      let acc' := String (digit_char (n mod 10)) acc in
      if Z.eqb (n / 10) 0 then acc' else digits_aux f (n / 10) acc'
  end.

(** Decimal digits of a non-negative integer. *)
Definition nat_digits (n : Z) : string :=
  digits_aux (S (Z.to_nat (Z.log2 n))) n EmptyString.

Definition z_to_string (z : Z) : string :=
  if Z.ltb z 0 then "-" ++ nat_digits (- z) else nat_digits z.

(** [k] fractional digits of [f] (0 <= f < 10^k), leading zeros kept,
    trailing zeros dropped. *)
Fixpoint frac_digits (k : nat) (f : Z) : string :=
  match k with
  | O => EmptyString
  | S k' =>
      let p := (10 ^ Z.of_nat k')%Z in
      let rest := frac_digits k' (f mod p) in
      if Z.eqb (f mod p) 0 then String (digit_char (f / p)) EmptyString
      else String (digit_char (f / p)) rest
  end.

(** [Number.prototype.toString] on the decimal numbers: exact for values
    with at most 20 fractional digits, truncated to 20 digits otherwise;
    the exponent notation JS uses below 1e-6 and from 1e21 on is not
    modelled. *)
Definition num_to_string (n : num) : string :=
  match n with
  | NaN => "NaN"
  | Num q =>
      let scaled := Qfloor (Qabs q * inject_Z (10 ^ 20)) in
      let ip := (scaled / 10 ^ 20)%Z in
      let fp := (scaled mod 10 ^ 20)%Z in
      let sign := if Qlt_le_dec q 0 then "-" else "" in
      if Z.eqb fp 0 then sign ++ nat_digits ip
      else sign ++ nat_digits ip ++ "." ++ frac_digits 20 fp
  end.

(** [String(v)]. *)
Fixpoint js_string (v : jsval) : string :=
  match v with
  | JUndef => "undefined"
  | JNull => "null"
  | JBool true => "true"
  | JBool false => "false"
  | JNum n => num_to_string n
  | JStr s => s
  | JArr xs =>
      (fix join (l : list jsval) : string :=
         match l with
         | [] => ""
         | [x] => match x with JUndef | JNull => "" | _ => js_string x end
         | x :: l' =>
             (match x with JUndef | JNull => "" | _ => js_string x end)
               ++ "," ++ join l'
         end) xs
  | JObj _ => "[object Object]"
  end.

Definition is_ws (c : ascii) : bool :=
  match nat_of_ascii c with
  | 9 | 10 | 11 | 12 | 13 | 32 => true
  | _ => false
  end%nat.

Fixpoint trim_start (s : string) : string :=
  match s with
  | String c s' => if is_ws c then trim_start s' else s
  | EmptyString => EmptyString
  end.

Definition trim (s : string) : string :=
  string_of_list_ascii
    (rev (list_ascii_of_string
      (trim_start (string_of_list_ascii (rev (list_ascii_of_string (trim_start s))))))).

Definition digit_of (c : ascii) : option Z :=
  let n := nat_of_ascii c in
  if (48 <=? n)%nat && (n <=? 57)%nat then Some (Z.of_nat (n - 48)) else None.

(** Longest run of decimal digits: value, number of digits, rest. *)
Fixpoint take_digits (s : string) (acc : Z) (cnt : nat) : Z * nat * string :=
  match s with
  | String c s' =>
      match digit_of c with
      | Some d => take_digits s' (acc * 10 + d) (S cnt)
      | None => (acc, cnt, s)
      end
  | EmptyString => (acc, cnt, EmptyString)
  end.

(** Longest prefix of [s] of the form [sign? digits? (. digits?)?] with at
    least one digit, and the rest of the string.  Exponents, [Infinity] and
    hexadecimal literals are not modelled. *)
Definition parse_decimal (s : string) : option (Q * string) :=
  let '(sgn, s1) :=
    match s with
    | String "-"%char r => ((-1)%Z, r)
    | String "+"%char r => (1%Z, r)
    | _ => (1%Z, s)
    end in
  let '(ip, ni, s2) := take_digits s1 0 0 in
  let '(fp, nf, s3) :=
    match s2 with
    | String "."%char r => take_digits r 0 0
    | _ => (0%Z, 0%nat, s2)
    end in
  if (ni + nf =? 0)%nat then None
  else Some (inject_Z sgn * (inject_Z ip + Qmake fp (Z.to_pos (10 ^ Z.of_nat nf))), s3).

(** [Number(s)] / unary [+s]: the whole trimmed string must be a literal. *)
Definition str_to_number (s : string) : num :=
  let t := trim s in
  if String.eqb t "" then Num 0
  else match parse_decimal t with
       | Some (q, EmptyString) => Num q
       | _ => NaN
       end.

(** ToNumber. *)
Definition to_number (v : jsval) : num :=
  match v with
  | JUndef => NaN
  | JNull => Num 0
  | JBool b => Num (if b then 1 else 0)
  | JNum n => n
  | JStr s => str_to_number s
  | JArr _ => str_to_number (js_string v)
  | JObj _ => NaN
  end.

(** [parseFloat(v)]: the longest decimal prefix of [String(v)]; a number
    is returned as it is. *)
Definition parseFloat (v : jsval) : num :=
  match v with
  | JNum n => n
  | _ => match parse_decimal (trim_start (js_string v)) with
         | Some (q, _) => Num q
         | None => NaN
         end
  end.

(** ** IEEE-754 doubles

    The binary64 numbers of Rocq's SpecFloat (sign, mantissa, exponent;
    precision 53, maximal exponent 1024) with its correctly rounded
    multiplication and division (round to nearest, ties to even). *)

Definition double := spec_float.

Definition dmul (x y : double) : double := SFmul 53 1024 x y.
Definition ddiv (x y : double) : double := SFdiv 53 1024 x y.

(** The double nearest to an integer. *)
Definition d_of_Z (z : Z) : double := binary_normalize 53 1024 z 0 false.

(** The double nearest to a rational (one correctly rounded division of
    the numerator by the denominator): the value of a numeric literal. *)
Definition d_of_Q (q : Q) : double :=
  match Qnum q with
  | Z0 => S754_zero false
  | Zpos n => ddiv (S754_finite false n 0) (S754_finite false (Qden q) 0)
  | Zneg n => ddiv (S754_finite true n 0) (S754_finite false (Qden q) 0)
  end.

Definition num_to_double (n : num) : double :=
  match n with NaN => S754_nan | Num q => d_of_Q q end.

(** A well-formed double: canonical mantissa, exponent in range. *)
Definition d_valid (x : double) : bool := valid_binary 53 1024 x.

(** [isFinite] on a number. *)
Definition d_is_finite (x : double) : bool :=
  match x with S754_zero _ | S754_finite _ _ _ => true | _ => false end.


(** [Math.floor]: exact; [-0], the infinities and NaN are returned as
    they are. *)
Definition js_floor (x : double) : double :=
  match x with
  | S754_finite s m e =>
      if Z.leb 0 e then x
      else let z := Z.shiftr (cond_Zopp s (Zpos m)) (- e) in
           if Z.eqb z 0 then S754_zero s else d_of_Z z
  | _ => x
  end.

(** [Math.round]: [floor(x + 1/2)], exact; a zero result keeps the sign
    of [x] ([Math.round(-0.4)] is [-0]). *)
Definition js_round (x : double) : double :=
  match x with
  | S754_finite s m e =>
      if Z.leb 0 e then x
      else let z := Z.shiftr (cond_Zopp s (Zpos m) + 2 ^ (- e - 1)) (- e) in
           if Z.eqb z 0 then S754_zero s else d_of_Z z
  | _ => x
  end.

(** [x === v] for a number [x]: false unless [v] is a number; NaN equals
    nothing and [+0 === -0]. *)
Definition strict_eq_num (x : double) (v : jsval) : bool :=
  match v with
  | JNum n => SFeqb x (num_to_double n)
  | _ => false
  end.

(** ** Poloniex: response classification (processResponse) *)

Module Poloniex.

(** An [Error] object with the [notFatal] flag the retry wrapper reads. *)
Record jserror := mkError { message : string; notFatal : bool }.

Definition recoverableErrors : list string :=
  [ "SOCKETTIMEDOUT"; "TIMEDOUT"; "CONNRESET"; "CONNREFUSED"; "NOTFOUND";
    "429"; "522"; "504"; "503"; "500"; "502"; "Empty response";
    "Please try again in a few minutes."; "Nonce must be greater than" ].

(** Errors that might mean the API call succeeded. *)
Definition unknownResultErrors : list string := [ "ETIMEDOUT" ].

(** [includes(str, list)] on a string. *)
Definition includes (s : string) (l : list string) : bool :=
  existsb (str_includes s) l.

(** [includes(data, list)]: false unless [data] is a string. *)
Definition includes_val (v : jsval) (l : list string) : bool :=
  match v with JStr s => includes s l | _ => false end.

Definition cloudflareMessage : string :=
  "Your IP has been flagged by CloudFlare. " ++
  "As such Gekko Broker cannot access Poloniex.".

Definition notFoundMessage : string :=
  "Order not found, or you are not the person who placed it.".

Definition invalidOrderMessage : string :=
  "Invalid order number, or you are not the person who placed the order.".

(** Lines 55-76: the error built from the transport error [err] or from the
    body [data], and the data passed on.  A transport error is an [Error]
    object (always truthy); [err] holds its string conversion, which
    [new Error(err)] takes as message. *)
Definition raw_error (err : option string) (data : jsval)
  : option jserror * jsval :=
  match err with
  | Some m => (Some (mkError m false), data)
  | None =>
      if negb (truthy data) then (Some (mkError "Empty response" false), data)
      else if truthy (prop data "error") then
        (Some (mkError (js_string (prop data "error")) false), data)
      else if includes_val data ["Please complete the security check to proceed."] then
        (Some (mkError cloudflareMessage false), JUndef)
      else if includes_val data ["Please try again in a few minutes."] then
        (Some (mkError "Please try again in a few minutes." true), JUndef)
      else if includes_val data ["<!DOCTYPE html>"] then
        (Some (mkError (js_string data) false), JUndef)
      else (None, data)
  end.

(** What the closure returned by [processResponse] does with its input:
    call [next(error, data)], or (line 103) schedule [findLastTrade] after
    [this.checkInterval] to find out whether an order was created. *)
Inductive presult :=
| PNext (e : option jserror) (d : jsval)
| PFindLastTrade (e : jserror).

Definition fn_is (fn : option string) (name : string) : bool :=
  match fn with Some f => String.eqb f name | None => false end.

(** Lines 78-118. *)
Definition classify (fn : option string) (ed : option jserror * jsval) : presult :=
  let '(error, data) := ed in
  match error with
  | None => PNext None data
  | Some e0 =>
      let e1 := if includes (message e0) recoverableErrors
                then mkError (message e0) true else e0 in
      let '(error, data) :=
        if fn_is fn "getOrder" && str_includes (message e1) notFoundMessage
        then (None, JObj [("unfilled", JBool true)])
        else (Some e1, data) in
      let '(error, data) :=
        match error with
        | Some e2 =>
            if fn_is fn "cancelOrder" && str_includes (message e2) invalidOrderMessage
            then (None, JObj [("filled", JBool true)])
            else (error, data)
        | None => (error, data)
        end in
      match error with
      | Some e3 =>
          if fn_is fn "order" && includes (message e3) unknownResultErrors
          then PFindLastTrade e3
          else PNext error data
      | None => PNext error data
      end
  end.

Definition processResponse (fn : option string) (err : option string) (data : jsval)
  : presult :=
  classify fn (raw_error err data).


(** ** Traces of the callback-style operations *)

(** What an operation does, in order: requests to the exchange, timers,
    and the invocations of its callback (or an exception escaping it). *)
Inductive event :=
| ECall (api : string) (k : nat)   (** the [k]-th request to endpoint [api] *)
| EWait (delay : jsval)            (** [setTimeout(..., delay)] *)
| EBackoff                         (** the retry wrapper waits before a new attempt *)
| EThrow (what : string)           (** an exception escapes the callback *)
| EOk (v : jsval)                  (** [callback(undefined, v)] *)
| EErr (e : jserror).              (** [callback(e)] *)

(** A Node-style callback [(err, data) => ...], as the events it produces. *)
Definition cont := option jserror -> jsval -> list event.

(** Modelled from the spec: [retry] of ../exchangeUtils, which is not in
    src (section 4.2 of the spec).  [attempt k next] performs the [k]-th
    attempt and reports through [next]; on success, and on an error without
    [notFatal], the result goes to [handle] at once; on a [notFatal]
    (retryable) error the wrapper waits and attempts again, and once its
    budget of [n] further attempts is spent it surfaces the last error. *)
Fixpoint retry (n : nat) (k : nat) (attempt : nat -> cont -> list event)
  (handle : cont) : list event :=
  attempt k (fun e d =>
    match e with
    | Some er =>
        if notFatal er then
          match n with
          | O => handle e d
          | S n' => EBackoff :: retry n' (S k) attempt handle
          end
        else handle e d
    | None => handle e d
    end).

(** The closure [this.processResponse(next, fn)] applied to a raw response;
    [defer] is what happens after the [setTimeout] of line 103. *)
Definition respond (fn : option string) (raw : option string * jsval)
  (next : cont) (defer : jserror -> list event) : list event :=
  match processResponse fn (fst raw) (snd raw) with
  | PNext e d => next e d
  | PFindLastTrade e => defer e
  end.

(** A request whose responses are [resp 0], [resp 1], ... (one per
    attempt), classified with [fn] and run under [retry(null, fetch, handle)]
    with [n] retries.  [fn] is never ['order'] here, so [defer] is never
    used (lemma [classify_not_order]). *)
Definition request (api : string) (fn : option string) (n : nat)
  (resp : nat -> option string * jsval) (handle : cont) : list event :=
  retry n 0 (fun k next => ECall api k :: respond fn (resp k) next (fun _ => []))
    handle.

(** The events of attempts [k], ..., [k + j] of a retried request whose
    first [j] attempts fail with a retryable error: one request per attempt
    and a back-off between two attempts. *)
Fixpoint attempts (api : string) (k j : nat) : list event :=
  match j with
  | O => [ECall api k]
  | S j' => ECall api k :: EBackoff :: attempts api (S k) j'
  end.

(** The responses to attempts [k], ..., [k + j - 1] are classified as
    retryable ([notFatal]) errors. *)
Definition retried (fn : option string) (r : nat -> option string * jsval) (k j : nat)
  : Prop :=
  forall i, (i < j)%nat ->
    exists e d, processResponse fn (fst (r (k + i)%nat)) (snd (r (k + i)%nat))
                  = PNext (Some e) d /\ notFatal e = true.

(** The outcome [e] of the attempt after [j] retries ends the retry loop of
    a budget of [n] retries: a success, an error without [notFatal], or
    any error once the budget is spent. *)
Definition settles (n j : nat) (e : option jserror) : Prop :=
  match e with
  | Some er => notFatal er = false \/ j = n
  | None => True
  end.

(** ** Placement (buy, sell) and findLastTrade *)

Section Placement.

(** [moment.utc(x).valueOf()] ([None]: invalid date, i.e. NaN). *)
Variable utc_ms : jsval -> option Z.
(** The time [moment()] reads in findLastTrade after the [k]-th attempt. *)
Variable clock : nat -> Z.
(** [this.checkInterval] (never assigned by the Trader constructor). *)
Variable checkInterval : jsval.
(** Responses to the placement attempts and, after the [k]-th attempt, to
    the [j]-th returnOpenOrders query. *)
Variable place_resp : nat -> option string * jsval.
Variable open_resp : nat -> nat -> option string * jsval.
(** Retries the wrapper grants the placement and the open-order query. *)
Variable place_retries query_retries : nat.

(** [moment.utc(o.date) > moment().subtract(since, 'm')]. *)
Definition is_recent (since now : Z) (o : jsval) : bool :=
  match utc_ms (prop o "date") with
  | Some t => Z.gtb t (now - since * 60000)
  | None => false
  end.

(** The [handle] of findLastTrade (lines 123-140).  [next] is not bound in
    its scope, so the error branch throws a ReferenceError. *)
Definition findLastTrade_handle (since : Z) (now : Z) (callback : cont) : cont :=
  fun err result =>
    match err with
    | Some _ => [EThrow "ReferenceError: next is not defined"]
    | None =>
        app (if truthy (prop result "length") then [] else callback None JUndef)
        (callback None
          (if Z.eqb since 0 then lodash_last result
           else lodash_find (is_recent since now) result))
    end.

Definition findLastTrade (k : nat) (since : Z) (callback : cont) : list event :=
  request "returnOpenOrders" None query_retries (open_resp k)
    (findLastTrade_handle since (clock k) callback).

(** The [handle] of buy and sell (lines 213-219). *)
Definition order_handle : cont :=
  fun err result =>
    match err with
    | Some e => [EErr e]
    | None => [EOk (prop result "orderNumber")]
    end.

(** The [k]-th placement attempt: the request, classified with ['order'];
    on an ambiguous timeout, lines 103-112. *)
Definition place_attempt (api : string) (k : nat) (next : cont) : list event :=
  ECall api k ::
  respond (Some "order") (place_resp k) next
    (fun error =>
       EWait checkInterval ::
       findLastTrade k 2 (fun _ lastTrade =>
         if truthy lastTrade then next None lastTrade
         else next (Some error) JUndef)).

Definition place (api : string) : list event :=
  retry place_retries 0 (place_attempt api) order_handle.

Definition sell : list event := place "sell".

End Placement.

(** ** checkOrder, getOrder, cancelOrder, getPortfolio, rounding *)

Definition executed_closed : jsval :=
  JObj [("executed", JBool true); ("open", JBool false)].

(** The [handle] of checkOrder (lines 239-256).  [o.orderNumber] throws on
    a null element (an undefined one, impossible in JSON, throws alike). *)
Definition checkOrder_handle (id : jsval) : cont :=
  fun err result =>
    match err with
    | Some e => [EErr e]
    | None =>
        if truthy (prop result "completed") then [EOk executed_closed]
        else
          match find_by strict_eq "orderNumber" id (collection result) with
          | None => [EThrow "TypeError: Cannot read properties of null (reading 'orderNumber')"]
          | Some order =>
              if negb (truthy order) then [EOk executed_closed]
              else [EOk (JObj [("executed", JBool false); ("open", JBool true);
                               ("filledAmount",
                                JNum (num_sub (to_number (prop order "startingAmount"))
                                              (to_number (prop order "amount"))))])]
          end
    end.

(** checkOrder: myOpenOrders classified without an operation name. *)
Definition checkOrder (n : nat) (resp : nat -> option string * jsval) (id : jsval)
  : list event :=
  request "myOpenOrders" None n resp (checkOrder_handle id).

Section GetOrder.

(** [moment(x).valueOf()] ([NaN] for an invalid date). *)
Variable moment_ms : jsval -> num.





End GetOrder.

(** The [handle] of cancelOrder (lines 289-303). *)
Definition cancelOrder_handle : cont :=
  fun err result =>
    match err with
    | Some e => [EErr e]
    | None =>
        if truthy (prop result "filled") then [EOk (JBool true)]
        else if negb (truthy (prop result "success")) then [EOk (JBool false)]
        else [EOk (JBool false)]
    end.

Definition cancelOrder (n : nat) (resp : nat -> option string * jsval) : list event :=
  request "cancelOrder" (Some "cancelOrder") n resp cancelOrder_handle.

(** The [handle] of getPortfolio (lines 146-167).  [parseFloat] always
    returns a number, so [!_.isNumber(x)] never holds. *)
Definition getPortfolio_handle (asset currency : string) : cont :=
  fun err data =>
    match err with
    | Some e => [EErr e]
    | None =>
        let assetAmount := parseFloat (prop data asset) in
        let currencyAmount := parseFloat (prop data currency) in
        let '(assetAmount, currencyAmount) :=
          if num_is_nan assetAmount || num_is_nan currencyAmount
          then (Num 0, Num 0) else (assetAmount, currencyAmount) in
        [EOk (JArr [JObj [("name", JStr asset); ("amount", JNum assetAmount)];
                    JObj [("name", JStr currency); ("amount", JNum currencyAmount)]])]
    end.

Definition getPortfolio (asset currency : string) (n : nat)
  (resp : nat -> option string * jsval) : list event :=
  request "myBalances" None n resp (getPortfolio_handle asset currency).

(** roundAmount and roundPrice (lines 203-209): unary plus. *)
Definition roundAmount (amount : jsval) : num := to_number amount.
Definition roundPrice (price : jsval) : num := to_number price.


(** ** getTicker, getFee and getTrades *)

(** [this.pair] (line 18). *)
Definition pair (currency asset : string) : string := currency ++ "_" ++ asset.

(** The [handle] of getTicker (lines 174-184); the callback gets [null] as
    error.  Reading a property of an undefined or null [tick] throws. *)
Definition getTicker_handle (currency asset : string) : cont :=
  fun err data =>
    match err with
    | Some e => [EErr e]
    | None =>
        let tick := prop data (pair currency asset) in
        match tick with
        | JUndef => [EThrow "TypeError: Cannot read properties of undefined"]
        | JNull => [EThrow "TypeError: Cannot read properties of null"]
        | _ => [EOk (JObj [("bid", JNum (parseFloat (prop tick "highestBid")));
                           ("ask", JNum (parseFloat (prop tick "lowestAsk")))])]
        end
    end.

Definition getTicker (currency asset : string) (n : nat)
  (resp : nat -> option string * jsval) : list event :=
  request "getTicker" None n resp (getTicker_handle currency asset).

(** The [handle] of getFee (lines 192-197). *)
Definition getFee_handle : cont :=
  fun err data =>
    match err with
    | Some e => [EErr e]
    | None => [EOk (JNum (parseFloat (prop data "makerFee")))]
    end.

Definition getFee (n : nat) (resp : nat -> option string * jsval) : list event :=
  request "returnFeeInfo" None n resp getFee_handle.

(** Calling [callback] when it may be undefined ([None]). *)
Definition invoke (callback : option cont) (err : option jserror) (v : jsval)
  : list event :=
  match callback with
  | Some c => c err v
  | None => [EThrow "TypeError: callback is not a function"]
  end.

(** The [handle] of buy and sell (lines 213-219, 226-232) for a given
    [callback] argument. *)
Definition order_handle_with (callback : option cont) : cont :=
  fun err result =>
    match err with
    | Some e => invoke callback (Some e) JUndef
    | None => invoke callback None (prop result "orderNumber")
    end.

(** No invocation of an operation's callback in a trace. *)
Definition no_callback (l : list event) : bool :=
  forallb (fun ev => match ev with EOk _ | EErr _ => false | _ => true end) l.

Section TradeHistory.

Variable utc_ms : jsval -> option Z.
Variable clock : nat -> Z.
Variable checkInterval : jsval.
(** The exchange's answers to the sell order getTrades ends up placing. *)
Variable place_resp : nat -> option string * jsval.
Variable open_resp : nat -> nat -> option string * jsval.
Variable place_retries query_retries : nat.
(** Whether [_.bindAll(this)] in the constructor bound the prototype
    methods to the instance: lodash up to version 3 binds every function
    of the object, inherited ones included, when no names are given;
    lodash 4 binds none.  The lodash version is not fixed by src. *)
Variable bound : bool.

(** getTrades (lines 309-348).  [this.processResponse(this.sell, args, ...)]
    binds [next] to [this.sell] and [fn] to the arguments array (never equal
    to a string, like [None]); the third argument is ignored.  The single
    returnTradeHistory answer (not retried) is thus handed to
    [this.sell(error, data)]: a sell order with amount [error], price
    [data] and an undefined callback.  When [this.sell] is not bound, it
    runs with [this] the global object (the module is not strict), and its
    first attempt reads [this.poloniex.sell] from an undefined
    [this.poloniex].  The classification never defers here (lemma
    [classify_not_order]), hence the empty second branch. *)
Definition getTrades (trade_resp : option string * jsval) : list event :=
  ECall "returnTradeHistory" 0 ::
  match processResponse None (fst trade_resp) (snd trade_resp) with
  | PNext _ _ =>
      if bound then
        retry place_retries 0
          (place_attempt utc_ms clock checkInterval place_resp open_resp query_retries "sell")
          (order_handle_with None)
      else [EThrow "TypeError: Cannot read properties of undefined (reading 'sell')"]
  | PFindLastTrade _ => []
  end.

End TradeHistory.

End Poloniex.

(** ** Binance (src/exchange/wrappers/binance.js) *)

Module Binance.

(** [Errors.AbortError] and [Errors.RetryError] of ../exchangeErrors. *)
Inductive berror :=
| AbortError (msg : string)
| RetryError (msg : string).

(** The alternatives of the [recoverableErrors] regular expression (line 51);
    matching it means containing one of them. *)
Definition recoverableErrors : list string :=
  [ "SOCKETTIMEDOUT"; "TIMEDOUT"; "CONNRESET"; "CONNREFUSED"; "NOTFOUND";
    "Error -1021"; "Response code 429"; "Response code 5" ].

(** processError (lines 53-61); [error] is [Some m] for an [Error] whose
    message is [m]. *)
Definition processError (error : option string) : option berror :=
  match error with
  | None => None
  | Some m =>
      if String.eqb m "" || negb (existsb (str_includes m) recoverableErrors)
      then Some (AbortError ("[binance.js] " ++ m))
      else Some (RetryError ("[binance.js] " ++ m))
  end.

(** What the [check] callback of checkOrder does. *)
Inductive outcome :=
| BOk (v : jsval)          (** [callback(undefined, v)] *)
| BErr (e : berror)        (** [callback(err)] *)
| BThrow (v : jsval).      (** [throw v] *)

Definition status_is (status : jsval) (l : list string) : bool :=
  existsb (fun s => strict_eq status (JStr s)) l.

(** The [check] callback of checkOrder (lines 278-302). *)
Definition checkOrder_check (err : option berror) (data : jsval) : outcome :=
  match err with
  | Some e => BErr e
  | None =>
      let status := prop data "status" in
      if status_is status ["CANCELED"; "REJECTED"; "EXPIRED"] then
        BOk (JObj [("executed", JBool false); ("open", JBool false)])
      else if status_is status ["NEW"; "PARTIALLY_FILLED"] then
        BOk (JObj [("executed", JBool false); ("open", JBool true);
                   ("filledAmount", JNum (to_number (prop data "executedQty")))])
      else if status_is status ["FILLED"] then
        BOk (JObj [("executed", JBool true); ("open", JBool false)])
      else BThrow status
  end.

(** The loop of getPrecision (lines 174-175):
    [while (Math.round(tickSize * e) / e !== tickSize) { e *= 10; p++; }],
    run for at most [fuel] more iterations ([None]: it has not stopped by
    then).  [t] is [tickSize * 1] converted to a number; the comparison is
    with [tickSize] itself. *)
Fixpoint precision_loop (fuel : nat) (tickSize : jsval) (t e : double) (p : nat)
    : option nat :=
  if negb (strict_eq_num (ddiv (js_round (dmul t e)) e) tickSize) then
    match fuel with
    | O => None
    | S f => precision_loop f tickSize t (dmul e (d_of_Z 10)) (S p)
    end
  else Some p.

(** getPrecision (lines 172-177); [isFinite] converts its argument. *)
Definition getPrecision (fuel : nat) (tickSize : jsval) : option nat :=
  let t := num_to_double (to_number tickSize) in
  if negb (d_is_finite t) then Some 0%nat
  else precision_loop fuel tickSize t (d_of_Z 1) 0.


(** round (lines 179-190).  [t] is always an integer, so the default
    precision [100000000] is always replaced by [Math.pow(10, t)], taken
    as the double nearest to [10^t]. *)
Definition round (fuel : nat) (amount : double) (tickSize : jsval) : option double :=
  match getPrecision fuel tickSize with
  | None => None
  | Some t =>
      let precision := d_of_Z (10 ^ Z.of_nat t) in
      Some (ddiv (js_floor (dmul amount precision)) precision)
  end.

(** The [minimalOrder] of the configured market ([this.market]). *)
Record minimalOrder := { min_amount : jsval; min_price : jsval }.

Definition roundAmount (fuel : nat) (market : minimalOrder) (amount : double)
    : option double :=
  round fuel amount (min_amount market).

Definition roundPrice (fuel : nat) (market : minimalOrder) (price : double)
    : option double :=
  round fuel price (min_price market).

(** ** handleResponse and the other callbacks *)

(** What a callback of the adapter receives: an error of ../exchangeErrors
    or a plain [Error] with its message. *)
Inductive cberror :=
| ExchError (e : berror)
| PlainError (msg : string).

(** What a callback of the adapter does: [callback(undefined | null, v)],
    [callback(err)], or an exception escaping it. *)
Inductive reply :=
| ROk (v : jsval)
| RErr (e : cberror)
| RThrow (what : string).

(** handleResponse (lines 63-71): a body with a truthy [code] replaces the
    transport error by [new Error(`Error ${body.code}: ${body.msg}`)];
    [error] is the message of the transport error, if any. *)
Definition handleResponse (error : option string) (body : jsval) : option berror * jsval :=
  let error :=
    if truthy body && truthy (prop body "code")
    then Some ("Error " ++ js_string (prop body "code") ++ ": " ++ js_string (prop body "msg"))
    else error in
  (processError error, body).

(** Loose equality [==] between primitives. *)
Definition loose_prim (a b : jsval) : bool :=
  match a, b with
  | (JUndef | JNull), (JUndef | JNull) => true
  | (JUndef | JNull), _ | _, (JUndef | JNull) => false
  | JStr x, JStr y => String.eqb x y
  | _, _ =>
      match to_number a, to_number b with
      | Num x, Num y => Qeq_bool x y
      | _, _ => false
      end
  end.

(** Loose equality [==]: two objects are distinct references; an object
    compared with a primitive is converted to its string. *)
Definition loose_eq (a b : jsval) : bool :=
  match a, b with
  | (JArr _ | JObj _), (JArr _ | JObj _) => false
  | (JArr _ | JObj _), _ => loose_prim (JStr (js_string a)) b
  | _, (JArr _ | JObj _) => loose_prim a (JStr (js_string b))
  | _, _ => loose_prim a b
  end.

Definition type_error : string := "TypeError: Cannot read properties of undefined".

(** The [cancel] callback of cancelOrder (lines 315-323). *)
Definition cancel_handle (err : option berror) (data : jsval) : reply :=
  match err with
  | Some e =>
      if truthy data && strict_eq (prop data "msg") (JStr "UNKNOWN_ORDER")
      then ROk (JBool true)
      else RErr (ExchError e)
  | None => ROk (JBool false)
  end.

(** The [setBalance] callback of getPortfolio (lines 114-137).  The amounts
    are [const]: the assignments [assetAmount = 0] and [currencyAmount = 0]
    throw. *)
Definition setBalance (asset currency : string) (err : option berror) (data : jsval) : reply :=
  match err with
  | Some e => RErr (ExchError e)
  | None =>
      match data with
      | JUndef | JNull => RThrow type_error
      | _ =>
          match find_by strict_eq "asset" (JStr asset) (collection (prop data "balances")) with
          | None | Some JUndef | Some JNull => RThrow type_error
          | Some a =>
              let assetAmount := parseFloat (prop a "free") in
              match find_by strict_eq "asset" (JStr currency) (collection (prop data "balances")) with
              | None | Some JUndef | Some JNull => RThrow type_error
              | Some c =>
                  let currencyAmount := parseFloat (prop c "free") in
                  if num_is_nan assetAmount || num_is_nan currencyAmount
                  then RThrow "TypeError: Assignment to constant variable."
                  else ROk (JArr [JObj [("name", JStr asset); ("amount", JNum assetAmount)];
                                  JObj [("name", JStr currency); ("amount", JNum currencyAmount)]])
              end
          end
      end
  end.

(** The [setTicker] callback of getTicker (lines 150-165); [pair] is
    [this.pair]. *)
Definition setTicker (pair : string) (err : option berror) (data : jsval) : reply :=
  match err with
  | Some e => RErr (ExchError e)
  | None =>
      match find_by strict_eq "symbol" (JStr pair) (collection data) with
      | None => RThrow type_error
      | Some result =>
          if negb (truthy result)
          then RErr (PlainError ("Market " ++ pair ++ " not found on Binance"))
          else ROk (JObj [("ask", JNum (parseFloat (prop result "askPrice")));
                          ("bid", JNum (parseFloat (prop result "bidPrice")))])
      end
  end.

(** The [setOrder] callback of addOrder (lines 209-215). *)
Definition setOrder (err : option berror) (data : jsval) : reply :=
  match err with
  | Some e => RErr (ExchError e)
  | None =>
      match data with
      | JUndef => RThrow type_error
      | JNull => RThrow "TypeError: Cannot read properties of null"
      | _ => ROk (prop data "orderId")
      end
  end.

Section GetOrder.

(** [moment(x)], the date object getOrder reports. *)
Variable moment : jsval -> jsval.

(** The [get] callback of getOrder (lines 232-256): the first trade whose
    [orderId] is loosely equal to [order]. *)
Definition getOrder_get (order : jsval) (err : option berror) (data : jsval) : reply :=
  match err with
  | Some e => RErr (ExchError e)
  | None =>
      match find_by loose_eq "orderId" order (collection data) with
      | None => RThrow type_error
      | Some trade =>
          if negb (truthy trade) then RErr (PlainError "Trade not found")
          else ROk (JObj [("price", JNum (parseFloat (prop trade "price")));
                          ("amount", JNum (parseFloat (prop trade "qty")));
                          ("date", moment (prop trade "time"));
                          ("fees", JObj [(js_string (prop trade "commissionAsset"),
                                          JNum (to_number (prop trade "commission")))])])
      end
  end.

End GetOrder.

(** [a >= b]: two strings compare by code units; otherwise both sides are
    converted to numbers, and a comparison with NaN is false.  An object
    converts to its string first. *)
Fixpoint str_ltb (x y : string) : bool :=
  match x, y with
  | EmptyString, EmptyString => false
  | EmptyString, String _ _ => true
  | String _ _, EmptyString => false
  | String c x', String d y' =>
      if (nat_of_ascii c <? nat_of_ascii d)%nat then true
      else if (nat_of_ascii c =? nat_of_ascii d)%nat then str_ltb x' y'
      else false
  end.

Definition to_primitive (v : jsval) : jsval :=
  match v with JArr _ | JObj _ => JStr (js_string v) | _ => v end.

Definition js_ge (a b : jsval) : bool :=
  match to_primitive a, to_primitive b with
  | JStr x, JStr y => negb (str_ltb x y)
  | a', b' =>
      match to_number a', to_number b' with
      | Num x, Num y => Qle_bool y x
      | _, _ => false
      end
  end.

(** isValidPrice and isValidLot (lines 200-206); [minimal] is
    [this.market.minimalOrder]. *)
Definition isValidPrice (minimal price : jsval) : bool :=
  js_ge price (prop minimal "price").

Definition isValidLot (minimal price amount : jsval) : bool :=
  js_ge (JNum (num_mul (to_number amount) (to_number price))) (prop minimal "order").

End Binance.

(** ** Notions from the specification, to compare the code with *)

Module Spec.
Import Poloniex.



(** The operation-specific overrides of processResponse, per error message. *)
Definition override (fn : option string) (m : string) : bool :=
  (fn_is fn "getOrder" && str_includes m notFoundMessage) ||
  (fn_is fn "cancelOrder" && str_includes m invalidOrderMessage) ||
  (fn_is fn "order" && includes m unknownResultErrors).


(** No successful callback in a trace. *)
Definition no_success (l : list event) : Prop :=
  Forall (fun ev => match ev with EOk _ => False | _ => True end) l.

End Spec.

(** * Proofs *)

Import Poloniex.

(** A [classify] with [fn] other than ['order'] never schedules the order
    look-up. *)
Lemma classify_not_order (fn : option string) (ed : option jserror * jsval) (e : jserror) :
  fn_is fn "order" = false -> classify fn ed <> PFindLastTrade e.
Proof.
  intros Hfn. destruct ed as [[e0|] d]; simpl; [|discriminate].
  destruct (fn_is fn "getOrder" && _); [discriminate|].
  destruct (fn_is fn "cancelOrder" && _); [discriminate|].
  rewrite Hfn. simpl. discriminate.
Qed.

(** A request whose first response is classified as a success or as an error
    without [notFatal] is made once, and the handle gets that outcome. *)
Lemma request_first (api : string) (fn : option string) (n : nat)
  (resp : nat -> option string * jsval) (handle : cont) (e : option jserror) (d : jsval) :
  processResponse fn (fst (resp 0%nat)) (snd (resp 0%nat)) = PNext e d ->
  match e with Some er => notFatal er = false | None => True end ->
  request api fn n resp handle = ECall api 0 :: handle e d.
Proof.
  intros Hp He. unfold request. destruct n; simpl; unfold respond; rewrite Hp;
  (destruct e as [er|]; [rewrite He|]; reflexivity).
Qed.

(** [_.find] passes over the elements that do not match. *)
Lemma find_by_skip (eqf : jsval -> jsval -> bool) (key : string) (v : jsval) (xs ys : list jsval) :
  Forall (skipped eqf key v) xs ->
  find_by eqf key v (app xs ys) = find_by eqf key v ys.
Proof.
  induction 1 as [|x xs [H1 [H2 H3]] _ IH]; [reflexivity|].
  cbn [app find_by]. destruct x; try congruence; rewrite H3; exact IH.
Qed.

(** [_.find] returns the first matching element. *)
Lemma find_by_hit (eqf : jsval -> jsval -> bool) (key : string) (v : jsval) (xs : list jsval)
  (t : jsval) (ys : list jsval) :
  Forall (skipped eqf key v) xs -> truthy t = true -> eqf (prop t key) v = true ->
  find_by eqf key v (app xs (t :: ys)) = Some t.
Proof.
  intros Hs Ht He. rewrite find_by_skip by exact Hs. cbn [find_by].
  destruct t; try discriminate; rewrite He; reflexivity.
Qed.

(** [_.find] without a matching element. *)
Lemma find_by_miss (eqf : jsval -> jsval -> bool) (key : string) (v : jsval) (xs : list jsval) :
  Forall (skipped eqf key v) xs -> find_by eqf key v xs = Some JUndef.
Proof. intros Hs. rewrite <- (app_nil_r xs). rewrite find_by_skip by exact Hs. reflexivity. Qed.

Lemma retry_step (n k : nat) (attempt : nat -> cont -> list event) (handle : cont) :
  retry n k attempt handle =
  attempt k (fun e d =>
    match e with
    | Some er =>
        if notFatal er then
          match n with
          | O => handle e d
          | S n' => EBackoff :: retry n' (S k) attempt handle
          end
        else handle e d
    | None => handle e d
    end).
Proof. destruct n; reflexivity. Qed.

(** A retried request whose first [j] attempts fail with retryable errors
    and whose attempt after them settles the loop: [j + 1] requests with
    back-offs between them, then the handle gets that attempt's outcome. *)
Lemma retry_request_outcome (api : string) (fn : option string) (n k j : nat)
  (r : nat -> option string * jsval) (handle : cont) (e : option jserror) (d : jsval) :
  retried fn r k j -> (j <= n)%nat ->
  processResponse fn (fst (r (k + j)%nat)) (snd (r (k + j)%nat)) = PNext e d ->
  settles n j e ->
  retry n k (fun i next => ECall api i :: respond fn (r i) next (fun _ => [])) handle =
  (attempts api k j ++ handle e d)%list.
Proof.
  revert n k. induction j as [|j IH]; intros n k Hr Hj Hp Hs.
  - rewrite Nat.add_0_r in Hp. rewrite retry_step. cbn [attempts app]. f_equal.
    unfold respond. rewrite Hp. destruct e as [er|]; [|reflexivity].
    destruct Hs as [Hf | <-]; [rewrite Hf; reflexivity|].
    destruct (notFatal er); reflexivity.
  - destruct n as [|n]; [lia|].
    destruct (Hr 0%nat ltac:(lia)) as [e0 [d0 [Hp0 Hf0]]]. rewrite Nat.add_0_r in Hp0.
    rewrite retry_step. cbn [attempts app]. f_equal.
    unfold respond at 1. rewrite Hp0, Hf0. f_equal.
    apply IH.
    + intros i Hi. replace (S k + i)%nat with (k + S i)%nat by lia. apply Hr. lia.
    + lia.
    + replace (S k + j)%nat with (k + S j)%nat by lia. exact Hp.
    + destruct e as [er|]; [|exact I]. destruct Hs as [Hf | Hn]; [left; exact Hf | right; lia].
Qed.




Lemma classify_array (fn : option string) (xs : list jsval) :
  processResponse fn None (JArr xs) = PNext None (JArr xs).
Proof. reflexivity. Qed.


(** C10.  For every balance response the classification passes through,
    getPortfolio delivers exactly two entries, the asset first and the
    currency second; if either parsed balance is NaN (missing or not
    numeric), both amounts are 0; otherwise they are the parsed balances. *)
Theorem getPortfolio_two_entries (asset currency : string) (n : nat)
  (resp : nat -> option string * jsval) (data : jsval) :
  resp 0%nat = (None, data) ->
  raw_error None data = (None, data) ->
  exists a c,
    getPortfolio asset currency n resp =
      [ECall "myBalances" 0;
       EOk (JArr [JObj [("name", JStr asset); ("amount", JNum a)];
                  JObj [("name", JStr currency); ("amount", JNum c)]])] /\
    (num_is_nan (parseFloat (prop data asset))
       || num_is_nan (parseFloat (prop data currency)) = true ->
     a = Num 0 /\ c = Num 0) /\
    (num_is_nan (parseFloat (prop data asset))
       || num_is_nan (parseFloat (prop data currency)) = false ->
     a = parseFloat (prop data asset) /\ c = parseFloat (prop data currency)).
Proof.
  intros Hr Hraw. unfold getPortfolio.
  rewrite (request_first _ _ _ _ _ None data).
  2:{ rewrite Hr. unfold processResponse. simpl fst; simpl snd. rewrite Hraw. reflexivity. }
  2:{ exact I. }
  unfold getPortfolio_handle.
  destruct (num_is_nan (parseFloat (prop data asset))
              || num_is_nan (parseFloat (prop data currency))) eqn:E.
  - exists (Num 0), (Num 0). repeat split; discriminate.
  - exists (parseFloat (prop data asset)), (parseFloat (prop data currency)).
    repeat split; discriminate.
Qed.

Lemma getPortfolio_two_entries_witness :
  let data := JObj [("BTC", JStr "0.5"); ("ETH", JStr "n/a")] in
  (fun _ : nat => (@None string, data)) 0%nat = (None, data) /\
  raw_error None data = (None, data) /\
  exists a c,
    getPortfolio "ETH" "BTC" 3 (fun _ => (@None string, data)) =
      [ECall "myBalances" 0;
       EOk (JArr [JObj [("name", JStr "ETH"); ("amount", JNum a)];
                  JObj [("name", JStr "BTC"); ("amount", JNum c)]])] /\
    (num_is_nan (parseFloat (prop data "ETH"))
       || num_is_nan (parseFloat (prop data "BTC")) = true ->
     a = Num 0 /\ c = Num 0) /\
    (num_is_nan (parseFloat (prop data "ETH"))
       || num_is_nan (parseFloat (prop data "BTC")) = false ->
     a = parseFloat (prop data "ETH") /\ c = parseFloat (prop data "BTC")).
Proof.
  intros data. split; [reflexivity|]. split; [reflexivity|].
  apply (getPortfolio_two_entries "ETH" "BTC" 3 (fun _ => (@None string, data)) data);
    reflexivity.
Defined.

Lemma checkOrder_first_attempt (n : nat) (resp : nat -> option string * jsval)
  (j : nat) (id : jsval) (os : list jsval) :
  retried None resp 0 j -> (j <= n)%nat -> resp j = (None, JArr os) ->
  checkOrder n resp id =
    (attempts "myOpenOrders" 0 j ++ checkOrder_handle id None (JArr os))%list.
Proof.
  intros Hr Hj Hresp. unfold checkOrder, request.
  apply retry_request_outcome; [exact Hr | exact Hj | | exact I].
  cbn [Nat.add]. rewrite Hresp. reflexivity.
Qed.

(** C4 (counterexample).  An open order is reported as executed when the
    queried identifier is the number 120466 and the exchange lists the
    order number as the string "120466" ([===] compares types).  On
    Binance, a cancelled order, which is no longer open, is reported as
    neither executed nor open. *)
Lemma checkOrder_numeric_id_reports_executed :
  checkOrder 2 (fun _ => (None, JArr [JObj [("orderNumber", JStr "120466");
                                           ("startingAmount", JStr "1.5");
                                           ("amount", JStr "1.0")]]))
    (JNum (Num 120466)) = [ECall "myOpenOrders" 0; EOk executed_closed] /\
  Binance.checkOrder_check None (JObj [("status", JStr "CANCELED")]) =
    Binance.BOk (JObj [("executed", JBool false); ("open", JBool false)]).
Proof. split; vm_compute; reflexivity. Qed.

(** C4 (amended).  Poloniex's checkOrder, on the open-order list its
    retried myOpenOrders request returns, takes the first element whose
    [orderNumber] is strictly equal ([===]) to the queried identifier.  It
    reports that order as open and not executed, with [filledAmount =
    startingAmount - amount]; with no such element it reports the order as
    executed and not open; a null element before any match makes it throw
    a TypeError.  Binance's checkOrder decides from the order's status
    instead: CANCELED, REJECTED and EXPIRED give neither executed nor open,
    NEW and PARTIALLY_FILLED give open with [filledAmount = executedQty],
    FILLED gives executed. *)
Theorem checkOrder_open_or_filled (n : nat) (resp : nat -> option string * jsval)
  (j : nat) (id : jsval) (os : list jsval) :
  retried None resp 0 j -> (j <= n)%nat -> resp j = (None, JArr os) ->
  (forall pre o post,
     os = (pre ++ o :: post)%list ->
     Forall (skipped strict_eq "orderNumber" id) pre ->
     truthy o = true -> strict_eq (prop o "orderNumber") id = true ->
     checkOrder n resp id =
       (attempts "myOpenOrders" 0 j ++
        [EOk (JObj [("executed", JBool false); ("open", JBool true);
                    ("filledAmount",
                     JNum (num_sub (to_number (prop o "startingAmount"))
                                   (to_number (prop o "amount"))))])])%list) /\
  (Forall (skipped strict_eq "orderNumber" id) os ->
   checkOrder n resp id = (attempts "myOpenOrders" 0 j ++ [EOk executed_closed])%list) /\
  (forall pre post,
     os = (pre ++ JNull :: post)%list ->
     Forall (skipped strict_eq "orderNumber" id) pre ->
     checkOrder n resp id =
       (attempts "myOpenOrders" 0 j ++
        [EThrow "TypeError: Cannot read properties of null (reading 'orderNumber')"])%list) /\
  (forall data s, prop data "status" = JStr s -> In s ["CANCELED"; "REJECTED"; "EXPIRED"] ->
     Binance.checkOrder_check None data =
       Binance.BOk (JObj [("executed", JBool false); ("open", JBool false)])) /\
  (forall data s, prop data "status" = JStr s -> In s ["NEW"; "PARTIALLY_FILLED"] ->
     Binance.checkOrder_check None data =
       Binance.BOk (JObj [("executed", JBool false); ("open", JBool true);
                          ("filledAmount", JNum (to_number (prop data "executedQty")))])) /\
  (forall data, prop data "status" = JStr "FILLED" ->
     Binance.checkOrder_check None data =
       Binance.BOk (JObj [("executed", JBool true); ("open", JBool false)])).
Proof.
  intros Hr Hj Hresp. rewrite (checkOrder_first_attempt n resp j id os Hr Hj Hresp).
  unfold checkOrder_handle. cbn [prop truthy collection String.eqb Ascii.eqb Bool.eqb andb].
  split; [|split; [|split; [|split; [|split]]]].
  - intros pre o post -> Hs Ho He. rewrite (find_by_hit _ _ _ pre o post Hs Ho He), Ho.
    reflexivity.
  - intros Hs. rewrite (find_by_miss _ _ _ _ Hs). reflexivity.
  - intros pre post -> Hs. rewrite find_by_skip by exact Hs. reflexivity.
  - intros data s Hs Hin. unfold Binance.checkOrder_check. rewrite Hs.
    destruct Hin as [<- | [<- | [<- | []]]]; reflexivity.
  - intros data s Hs Hin. unfold Binance.checkOrder_check. rewrite Hs.
    destruct Hin as [<- | [<- | []]]; reflexivity.
  - intros data Hs. unfold Binance.checkOrder_check. rewrite Hs. reflexivity.
Qed.

Lemma checkOrder_open_or_filled_witness :
  let os := [JObj [("orderNumber", JStr "120466"); ("startingAmount", JStr "1.5");
                   ("amount", JStr "1.0")]] in
  let resp := fun k : nat => match k with
                             | O => (Some "Error: ESOCKETTIMEDOUT", JUndef)
                             | S _ => (@None string, JArr os)
                             end in
  retried None resp 0 1 /\ (1 <= 2)%nat /\ resp 1%nat = (None, JArr os) /\
  checkOrder 2 resp (JStr "120466") =
    [ECall "myOpenOrders" 0; EBackoff; ECall "myOpenOrders" 1;
     EOk (JObj [("executed", JBool false); ("open", JBool true);
                ("filledAmount", JNum (num_sub (Num (Qmake 15 10)) (Num (Qmake 10 10))))])] /\
  checkOrder 2 resp (JStr "999") =
    [ECall "myOpenOrders" 0; EBackoff; ECall "myOpenOrders" 1; EOk executed_closed].
Proof.
  intros os resp.
  assert (Hr : retried None resp 0 1).
  { intros i Hi. replace i with 0%nat by lia.
    exists (mkError "Error: ESOCKETTIMEDOUT" true), JUndef. split; reflexivity. }
  split; [exact Hr|]. split; [lia|]. split; [reflexivity|].
  pose proof (checkOrder_open_or_filled 2 resp 1 (JStr "120466") os Hr ltac:(lia) eq_refl)
    as [H1 _].
  pose proof (checkOrder_open_or_filled 2 resp 1 (JStr "999") os Hr ltac:(lia) eq_refl)
    as [_ [H2 _]].
  split.
  - rewrite (H1 [] _ [] eq_refl (Forall_nil _) eq_refl eq_refl). reflexivity.
  - rewrite H2; [reflexivity|]. constructor; [|constructor].
    split; [discriminate|]. split; [discriminate|]. reflexivity.
Defined.

Lemma status_is_app (v : jsval) (l1 l2 : list string) :
  Binance.status_is v (app l1 l2) = Binance.status_is v l1 || Binance.status_is v l2.
Proof. unfold Binance.status_is. apply existsb_app. Qed.

(** C5 (counterexample).  Binance's checkOrder does not invoke its callback
    for the order status PENDING_CANCEL: it throws the status. *)
Lemma binance_checkOrder_pending_cancel_throws :
  Binance.checkOrder_check None (JObj [("status", JStr "PENDING_CANCEL")])
  = Binance.BThrow (JStr "PENDING_CANCEL").
Proof. reflexivity. Qed.

(** C5 (amended).  Binance's checkOrder throws exactly when no error was
    reported and the status is none of CANCELED, REJECTED, EXPIRED, NEW,
    PARTIALLY_FILLED, FILLED; it throws the status itself.  In every other
    case it invokes its callback. *)
Theorem binance_checkOrder_throws_iff (err : option Binance.berror) (data v : jsval) :
  Binance.checkOrder_check err data = Binance.BThrow v <->
  err = None /\ v = prop data "status" /\
  Binance.status_is v ["CANCELED"; "REJECTED"; "EXPIRED"; "NEW"; "PARTIALLY_FILLED"; "FILLED"]
  = false.
Proof.
  unfold Binance.checkOrder_check.
  change ["CANCELED"; "REJECTED"; "EXPIRED"; "NEW"; "PARTIALLY_FILLED"; "FILLED"]
    with (app ["CANCELED"; "REJECTED"; "EXPIRED"] (app ["NEW"; "PARTIALLY_FILLED"] ["FILLED"])).
  rewrite !status_is_app.
  destruct err as [e|].
  - split; [discriminate | intros [H _]; discriminate].
  - destruct (Binance.status_is (prop data "status") ["CANCELED"; "REJECTED"; "EXPIRED"]) eqn:E1;
    destruct (Binance.status_is (prop data "status") ["NEW"; "PARTIALLY_FILLED"]) eqn:E2;
    destruct (Binance.status_is (prop data "status") ["FILLED"]) eqn:E3;
    split; try discriminate;
    try (intros [_ [-> H]]; rewrite E1, E2, E3 in H; discriminate).
    + intros H. injection H as <-. rewrite E1, E2, E3. auto.
    + intros [_ [-> _]]. reflexivity.
Qed.

(** Only the "try again" page sets [notFatal] before line 78, and its
    message is in the table. *)
Lemma raw_error_notFatal (err : option string) (data : jsval) (e : jserror) (d : jsval) :
  raw_error err data = (Some e, d) -> notFatal e = true ->
  includes (message e) recoverableErrors = true.
Proof.
  unfold raw_error. destruct err as [m|].
  - intros H. injection H as <- _. discriminate.
  - destruct (negb (truthy data)); [intros H; injection H as <- _; discriminate|].
    destruct (truthy (prop data "error")); [intros H; injection H as <- _; discriminate|].
    destruct (includes_val data _); [intros H; injection H as <- _; discriminate|].
    destruct (includes_val data _); [intros H; injection H as <- _; intros _; reflexivity|].
    destruct (includes_val data _); [intros H; injection H as <- _; discriminate|].
    discriminate.
Qed.

(** Without an operation-specific override, the error gets [notFatal]
    exactly when its message contains an entry of [recoverableErrors]. *)
Lemma classify_no_override (fn : option string) (err : option string) (data : jsval)
  (e : jserror) (d : jsval) :
  raw_error err data = (Some e, d) ->
  Spec.override fn (message e) = false ->
  processResponse fn err data =
    PNext (Some (mkError (message e) (includes (message e) recoverableErrors))) d.
Proof.
  intros Hraw Hov. unfold processResponse. rewrite Hraw. unfold classify.
  unfold Spec.override in Hov.
  apply orb_false_elim in Hov as [Hov Hord]. apply orb_false_elim in Hov as [Hget Hcan].
  assert (He1 : (if includes (message e) recoverableErrors
                 then mkError (message e) true else e)
                = mkError (message e) (includes (message e) recoverableErrors)).
  { destruct (includes (message e) recoverableErrors) eqn:Ei; [reflexivity|].
    destruct e as [m nf]. destruct nf; [|reflexivity].
    pose proof (raw_error_notFatal _ _ _ _ Hraw eq_refl) as Hc. simpl in Hc, Ei. congruence. }
  rewrite He1. cbn [message]. rewrite Hget. cbv beta iota.
  cbn [message]. rewrite Hcan. cbv beta iota. cbn [message]. rewrite Hord. reflexivity.
Qed.

(** C6 (counterexample).  Binance's classifier treats the recoverable
    signatures "Please try again in a few minutes." and "Empty response" as
    fatal (AbortError). *)
Lemma binance_try_again_fatal :
  Binance.processError (Some "Please try again in a few minutes.")
    = Some (Binance.AbortError "[binance.js] Please try again in a few minutes.") /\
  Binance.processError (Some "Empty response")
    = Some (Binance.AbortError "[binance.js] Empty response").
Proof. split; reflexivity. Qed.

(** C6 (amended).  Poloniex: unless an operation-specific override applies,
    an error is marked [notFatal] (retryable) exactly when its message
    contains an entry of the adapter's table (SOCKETTIMEDOUT, TIMEDOUT,
    CONNRESET, CONNREFUSED, NOTFOUND, 429, 522, 504, 503, 500, 502, Empty
    response, Please try again in a few minutes., Nonce must be greater
    than), and is fatal otherwise.  Binance: an error is a RetryError exactly
    when its message is non-empty and contains one of SOCKETTIMEDOUT,
    TIMEDOUT, CONNRESET, CONNREFUSED, NOTFOUND, Error -1021, Response code
    429, Response code 5; otherwise it is an AbortError. *)
Theorem classification_tables (fn : option string) (err : option string) (data : jsval)
  (e : jserror) (d : jsval) :
  raw_error err data = (Some e, d) ->
  Spec.override fn (message e) = false ->
  processResponse fn err data =
    PNext (Some (mkError (message e) (includes (message e) recoverableErrors))) d /\
  (forall m : string,
     (exists x, Binance.processError (Some m) = Some (Binance.RetryError x)) <->
     m <> "" /\ existsb (str_includes m) Binance.recoverableErrors = true).
Proof.
  intros Hraw Hov. split; [exact (classify_no_override _ _ _ _ _ Hraw Hov)|].
  intros m. unfold Binance.processError.
  destruct (existsb (str_includes m) Binance.recoverableErrors) eqn:Ex;
  destruct (String.eqb m "") eqn:Em; cbn [orb negb].
  - apply String.eqb_eq in Em. split; [intros [x Hx]; discriminate | intros [H _]; contradiction].
  - apply String.eqb_neq in Em. split; [intros _; auto | intros _; eexists; reflexivity].
  - split; [intros [x Hx]; discriminate | intros [_ H]; discriminate].
  - split; [intros [x Hx]; discriminate | intros [_ H]; discriminate].
Qed.

Lemma classification_tables_witness :
  raw_error (Some "Error: ESOCKETTIMEDOUT") JUndef
    = (Some (mkError "Error: ESOCKETTIMEDOUT" false), JUndef) /\
  Spec.override None "Error: ESOCKETTIMEDOUT" = false /\
  processResponse None (Some "Error: ESOCKETTIMEDOUT") JUndef =
    PNext (Some (mkError "Error: ESOCKETTIMEDOUT" true)) JUndef.
Proof.
  split; [reflexivity|]. split; [reflexivity|].
  destruct (classification_tables None (Some "Error: ESOCKETTIMEDOUT") JUndef
              (mkError "Error: ESOCKETTIMEDOUT" false) JUndef eq_refl eq_refl) as [H _].
  exact H.
Defined.

(** C2 (counterexample).  On the checkOrder path processResponse gets no
    operation name, so "Order not found, or you are not the person who
    placed it." reaches the caller as an error. *)
Lemma checkOrder_not_found_is_error :
  checkOrder 3 (fun _ => (Some notFoundMessage, JUndef)) (JStr "120466") =
    [ECall "myOpenOrders" 0; EErr (mkError notFoundMessage false)].
Proof. vm_compute. reflexivity. Qed.

(** C2 (amended).  An error whose message contains "Order not found, or you
    are not the person who placed it." becomes the success [{unfilled: true}]
    on the getOrder path; on the checkOrder path (no operation name) it stays
    an error, and when it is not retryable checkOrder hands it to its
    caller. *)
Theorem not_found_override_getOrder_only (err : option string) (data : jsval)
  (e : jserror) (d : jsval) :
  raw_error err data = (Some e, d) ->
  str_includes (message e) notFoundMessage = true ->
  processResponse (Some "getOrder") err data = PNext None (JObj [("unfilled", JBool true)]) /\
  processResponse None err data =
    PNext (Some (mkError (message e) (includes (message e) recoverableErrors))) d /\
  (forall n resp id,
     resp 0%nat = (err, data) ->
     includes (message e) recoverableErrors = false ->
     checkOrder n resp id = [ECall "myOpenOrders" 0; EErr (mkError (message e) false)]).
Proof.
  intros Hraw Hnf.
  assert (Hnone : processResponse None err data =
            PNext (Some (mkError (message e) (includes (message e) recoverableErrors))) d).
  { apply classify_no_override; [exact Hraw | reflexivity]. }
  split; [|split; [exact Hnone|]].
  - unfold processResponse. rewrite Hraw. unfold classify.
    cbn [fn_is String.eqb Ascii.eqb Bool.eqb andb].
    destruct (includes (message e) recoverableErrors); cbn [message]; rewrite Hnf; reflexivity.
  - intros n resp id Hr Hrec. unfold checkOrder.
    rewrite (request_first _ _ _ _ _ (Some (mkError (message e) false)) d).
    + reflexivity.
    + rewrite Hr. simpl fst; simpl snd. rewrite Hnone, Hrec. reflexivity.
    + reflexivity.
Qed.

Lemma not_found_override_getOrder_only_witness :
  raw_error (Some notFoundMessage) JUndef = (Some (mkError notFoundMessage false), JUndef) /\
  str_includes notFoundMessage notFoundMessage = true /\
  processResponse (Some "getOrder") (Some notFoundMessage) JUndef
    = PNext None (JObj [("unfilled", JBool true)]).
Proof.
  split; [reflexivity|]. split; [vm_compute; reflexivity|].
  destruct (not_found_override_getOrder_only (Some notFoundMessage) JUndef
              (mkError notFoundMessage false) JUndef eq_refl) as [H _];
    [vm_compute; reflexivity | exact H].
Defined.

(** [retry] over attempts that each make one request classified as an
    error: requests and waits, then the handle gets one of those errors. *)
Lemma retry_all_errors (api : string) (attempt : nat -> cont -> list event) (handle : cont) :
  (forall j, exists e d, forall next, attempt j next = ECall api j :: next (Some e) d) ->
  forall n k, exists pre e d,
    retry n k attempt handle = app pre (handle (Some e) d) /\
    Forall (fun ev => ev = EBackoff \/ exists j, ev = ECall api j) pre.
Proof.
  intros Hall n. induction n as [|n IH]; intros k;
  destruct (Hall k) as [e [d Hp]]; cbn [retry]; rewrite Hp.
  - exists [ECall api k], e, d. split; [destruct (notFatal e); reflexivity|].
    constructor; [right; eauto | constructor].
  - destruct (notFatal e).
    + destruct (IH (S k)) as [pre [e' [d' [Heq Hpre]]]].
      exists (ECall api k :: EBackoff :: pre), e', d'. split; [rewrite Heq; reflexivity|].
      constructor; [right; eauto|]. constructor; [left; reflexivity | exact Hpre].
    + exists [ECall api k], e, d. split; [reflexivity|].
      constructor; [right; eauto | constructor].
Qed.

(** C3 (counterexample).  A cancel response without error field whose
    [success] is falsy is turned into the success [filled = false]. *)
Lemma cancelOrder_failed_body_reports_unfilled :
  cancelOrder 3 (fun _ => (None, JObj [("success", JNum (Num 0))])) =
    [ECall "cancelOrder" 0; EOk (JBool false)].
Proof. vm_compute. reflexivity. Qed.

Lemma override_cancelOrder (m : string) :
  str_includes m invalidOrderMessage = false -> Spec.override (Some "cancelOrder") m = false.
Proof.
  intros H. unfold Spec.override. cbn [fn_is String.eqb Ascii.eqb Bool.eqb andb orb].
  rewrite H. reflexivity.
Qed.

Lemma cancelOrder_attempt (n j : nat) (resp : nat -> option string * jsval)
  (e : option jserror) (d : jsval) :
  retried (Some "cancelOrder") resp 0 j -> (j <= n)%nat ->
  processResponse (Some "cancelOrder") (fst (resp j)) (snd (resp j)) = PNext e d ->
  settles n j e ->
  cancelOrder n resp = (attempts "cancelOrder" 0 j ++ cancelOrder_handle e d)%list.
Proof. intros Hr Hj Hp Hs. exact (retry_request_outcome _ _ n 0 j resp _ e d Hr Hj Hp Hs). Qed.

(** C3 (amended).  After the retry wrapper's attempts, cancelOrder delivers
    [true] for an error containing "Invalid order number, or you are not
    the person who placed the order."; for a response that classification
    passes through as data it delivers the truthiness of its [filled]
    field, whatever its [success] field says; another error that ends the
    retries (not retryable, or the budget spent) is handed to the caller as
    an error; and when every attempt fails with such other errors, the
    caller only ever gets an error. *)
Theorem cancelOrder_outcomes :
  (forall n j resp e d,
     retried (Some "cancelOrder") resp 0 j -> (j <= n)%nat ->
     raw_error (fst (resp j)) (snd (resp j)) = (Some e, d) ->
     str_includes (message e) invalidOrderMessage = true ->
     cancelOrder n resp = (attempts "cancelOrder" 0 j ++ [EOk (JBool true)])%list) /\
  (forall n j resp d,
     retried (Some "cancelOrder") resp 0 j -> (j <= n)%nat ->
     raw_error (fst (resp j)) (snd (resp j)) = (None, d) ->
     cancelOrder n resp =
       (attempts "cancelOrder" 0 j ++ [EOk (JBool (truthy (prop d "filled")))])%list) /\
  (forall n j resp e d,
     retried (Some "cancelOrder") resp 0 j -> (j <= n)%nat ->
     raw_error (fst (resp j)) (snd (resp j)) = (Some e, d) ->
     str_includes (message e) invalidOrderMessage = false ->
     (includes (message e) recoverableErrors = false \/ j = n) ->
     cancelOrder n resp =
       (attempts "cancelOrder" 0 j ++
        [EErr (mkError (message e) (includes (message e) recoverableErrors))])%list) /\
  (forall n resp,
     (forall j, exists e d,
        raw_error (fst (resp j)) (snd (resp j)) = (Some e, d) /\
        str_includes (message e) invalidOrderMessage = false) ->
     Spec.no_success (cancelOrder n resp) /\
     exists e, last (cancelOrder n resp) (EOk JUndef) = EErr e).
Proof.
  split; [|split; [|split]].
  - intros n j resp e d Hr Hj Hraw Hinv.
    rewrite (cancelOrder_attempt n j resp None (JObj [("filled", JBool true)]) Hr Hj);
      [reflexivity| |exact I].
    unfold processResponse. rewrite Hraw. unfold classify.
    cbn [fn_is String.eqb Ascii.eqb Bool.eqb andb].
    destruct (includes (message e) recoverableErrors); cbn [message]; rewrite Hinv; reflexivity.
  - intros n j resp d Hr Hj Hraw.
    rewrite (cancelOrder_attempt n j resp None d Hr Hj);
      [| unfold processResponse; rewrite Hraw; reflexivity | exact I].
    unfold cancelOrder_handle.
    destruct (truthy (prop d "filled")); [reflexivity|].
    destruct (negb (truthy (prop d "success"))); reflexivity.
  - intros n j resp e d Hr Hj Hraw Hinv Hs.
    rewrite (cancelOrder_attempt n j resp
               (Some (mkError (message e) (includes (message e) recoverableErrors))) d Hr Hj);
      [reflexivity | | exact Hs].
    exact (classify_no_override _ _ _ _ _ Hraw (override_cancelOrder _ Hinv)).
  - intros n resp Hall. unfold cancelOrder, request.
    destruct (retry_all_errors "cancelOrder"
                (fun k next => ECall "cancelOrder" k ::
                               respond (Some "cancelOrder") (resp k) next (fun _ => []))
                cancelOrder_handle) with (n := n) (k := 0%nat)
      as [pre [e [d [Heq Hpre]]]].
    { intros j. destruct (Hall j) as [e [d [Hraw Hinv]]].
      exists (mkError (message e) (includes (message e) recoverableErrors)), d.
      intros next. unfold respond.
      rewrite (classify_no_override _ _ _ _ _ Hraw (override_cancelOrder _ Hinv)). reflexivity. }
    rewrite Heq. cbn [cancelOrder_handle]. split.
    + apply Forall_app. split; [|constructor; [exact I | constructor]].
      eapply Forall_impl; [|exact Hpre].
      intros ev [-> | [j ->]]; exact I.
    + exists e. apply last_last.
Qed.

(** ** Doubles: exactness of the operations used by Binance's round *)

Section Doubles.

Lemma iter_pos_nat {A} (f : A -> A) (p : positive) (x : A) :
  SpecFloat.iter_pos f p x = Nat.iter (Pos.to_nat p) f x.
Proof.
  revert x. induction p as [p IH|p IH|]; intros x; cbn [SpecFloat.iter_pos].
  - rewrite IH, IH, Pos2Nat.inj_xI. rewrite <- Nat.iter_add.
    rewrite Nat.iter_succ_r. f_equal. lia.
  - rewrite IH, IH, Pos2Nat.inj_xO. rewrite <- Nat.iter_add. f_equal. lia.
  - reflexivity.
Qed.

Lemma pos_iter_nat {A} (f : A -> A) (p : positive) (x : A) :
  Pos.iter f x p = Nat.iter (Pos.to_nat p) f x.
Proof.
  induction p using Pos.peano_ind; [reflexivity|].
  rewrite Pos.iter_succ, Pos2Nat.inj_succ, IHp. reflexivity.
Qed.

Lemma digits2_size (m : positive) : digits2_pos m = Pos.size m.
Proof. induction m; simpl; congruence. Qed.

Lemma digits_iter_xO (k : nat) (m : positive) :
  Zpos (digits2_pos (Nat.iter k xO m)) = (Zpos (digits2_pos m) + Z.of_nat k)%Z.
Proof.
  induction k as [|k IH]; [simpl; lia|].
  change (Nat.iter (S k) xO m) with (xO (Nat.iter k xO m)).
  rewrite digits2_size in *. cbn [Pos.size]. rewrite Pos2Z.inj_succ, IH. lia.
Qed.

Lemma shr_iter_xO (k : nat) (m : positive) :
  Nat.iter k shr_1 {| shr_m := Zpos (Nat.iter k xO m); shr_r := false; shr_s := false |} =
  {| shr_m := Zpos m; shr_r := false; shr_s := false |}.
Proof.
  induction k as [|k IH]; [reflexivity|].
  rewrite Nat.iter_succ_r. exact IH.
Qed.

Lemma digits_bounds (m : positive) :
  (2 ^ (Zpos (digits2_pos m) - 1) <= Zpos m < 2 ^ Zpos (digits2_pos m))%Z.
Proof.
  rewrite digits2_size. pose proof (Pos.size_gt m) as H1. pose proof (Pos.size_le m) as H2.
  split.
  - apply Pos2Z.pos_le_pos in H2. rewrite Pos2Z.inj_pow, (Pos2Z.inj_xO m) in H2.
    replace (Zpos (Pos.size m)) with (Zpos (Pos.size m) - 1 + 1)%Z in H2 by lia.
    rewrite Z.pow_add_r, Z.pow_1_r in H2 by lia. lia.
  - apply Pos2Z.pos_lt_pos in H1. rewrite Pos2Z.inj_pow in H1. exact H1.
Qed.

Lemma valid_finite (s : bool) (m : positive) (e : Z) :
  d_valid (S754_finite s m e) = true ->
  fexp 53 1024 (Zpos (digits2_pos m) + e) = e /\ (e <= 971)%Z.
Proof.
  unfold d_valid, valid_binary, bounded, canonical_mantissa.
  intros H. apply andb_true_iff in H as [H1 H2].
  apply Z.eqb_eq in H1. apply Z.leb_le in H2. split; [exact H1 | exact H2].
Qed.

Lemma dmul_one (x : double) : d_valid x = true -> dmul x (d_of_Z 1) = x.
Proof.
  intros Hv. change (d_of_Z 1) with (S754_finite false 4503599627370496 (-52)).
  destruct x as [s|s| |s m e]; try reflexivity.
  - unfold dmul, SFmul. rewrite xorb_false_r. reflexivity.
  - unfold dmul, SFmul. rewrite xorb_false_r. reflexivity.
  - apply valid_finite in Hv as [Hc Hb].
    unfold dmul, SFmul. rewrite xorb_false_r.
    replace (Pos.mul m 4503599627370496) with (Nat.iter 52 xO m)
      by (rewrite Pos.mul_comm; reflexivity).
    unfold binary_round_aux, shr_fexp. cbn [shr_record_of_loc Zdigits2].
    rewrite digits_iter_xO.
    replace (fexp 53 1024 (Zpos (digits2_pos m) + Z.of_nat 52 + (e + -52)) - (e + -52))%Z
      with 52%Z by (replace (Zpos (digits2_pos m) + Z.of_nat 52 + (e + -52))%Z
                      with (Zpos (digits2_pos m) + e)%Z by lia; rewrite Hc; lia).
    cbn [shr]. rewrite iter_pos_nat. change (Pos.to_nat 52) with 52%nat.
    rewrite shr_iter_xO. cbn [shr_m loc_of_shr_record round_nearest_even Zdigits2].
    replace (e + -52 + 52)%Z with e by lia.
    rewrite Hc, Z.sub_diag. cbn [shr shr_m].
    replace (e <=? 1024 - 53)%Z with true by (symmetry; apply Z.leb_le; lia). reflexivity.
Qed.

Lemma round_aux_exact (s : bool) (m : positive) (e : Z) :
  fexp 53 1024 (Zpos (digits2_pos m) + e) = e -> (e <= 971)%Z ->
  binary_round_aux 53 1024 s (Zpos m) e loc_Exact = S754_finite s m e.
Proof.
  intros Hc Hb. unfold binary_round_aux, shr_fexp. cbn [shr_record_of_loc Zdigits2].
  rewrite Hc, Z.sub_diag. cbn [shr shr_m loc_of_shr_record round_nearest_even Zdigits2].
  rewrite Hc, Z.sub_diag. cbn [shr shr_m].
  replace (e <=? 1024 - 53)%Z with true by (symmetry; apply Z.leb_le; lia). reflexivity.
Qed.

Lemma fexp_val (x : Z) : fexp 53 1024 x = Z.max (x - 53) (-1074).
Proof. reflexivity. Qed.

Lemma valid_iff (s : bool) (m : positive) (e : Z) :
  d_valid (S754_finite s m e) = true <->
  fexp 53 1024 (Zpos (digits2_pos m) + e) = e /\ (e <= 971)%Z.
Proof.
  unfold d_valid, valid_binary, bounded, canonical_mantissa.
  rewrite andb_true_iff, Z.eqb_eq, Z.leb_le. tauto.
Qed.

(** [d_of_Z] is exact on integers below 2^53. *)
Lemma d_of_Z_pos (s : bool) (m : positive) :
  (Zpos m < 2 ^ 53)%Z ->
  exists m' e', binary_round 53 1024 s m 0 = S754_finite s m' e' /\
    d_valid (S754_finite s m' e') = true.
Proof.
  intros Hm. pose proof (digits_bounds m) as [Hl Hu].
  set (d := Zpos (digits2_pos m)) in *.
  assert (Hd : (d <= 53)%Z).
  { destruct (Z.le_gt_cases d 53) as [H|H]; [exact H|].
    assert (2 ^ 53 <= 2 ^ (d - 1))%Z by (apply Z.pow_le_mono_r; lia). lia. }
  unfold binary_round, shl_align. fold d. rewrite fexp_val.
  replace (Z.max (d + 0 - 53) (-1074)) with (d - 53)%Z by lia.
  replace (d - 53 - 0)%Z with (d - 53)%Z by lia.
  destruct (d - 53)%Z as [|k|k] eqn:Ek.
  - exists m, 0%Z. assert (Hc : fexp 53 1024 (d + 0) = 0%Z) by (rewrite fexp_val; lia).
    rewrite round_aux_exact by (fold d; lia || exact Hc). split; [reflexivity|].
    apply valid_iff. fold d. split; [exact Hc | lia].
  - lia.
  - rewrite pos_iter_nat.
    assert (Hdig : Zpos (digits2_pos (Nat.iter (Pos.to_nat k) xO m)) = 53%Z).
    { rewrite digits_iter_xO. fold d. rewrite positive_nat_Z. lia. }
    exists (Nat.iter (Pos.to_nat k) xO m), (Zneg k).
    assert (Hc : fexp 53 1024 (Zpos (digits2_pos (Nat.iter (Pos.to_nat k) xO m)) + Zneg k) = Zneg k)
      by (rewrite Hdig, fexp_val; lia).
    rewrite round_aux_exact by (exact Hc || lia). split; [reflexivity|].
    apply valid_iff. split; [exact Hc | lia].
Qed.

Lemma div_eucl_pow (m : Z) (a b : nat) :
  (b <= a)%nat ->
  Z.div_eucl (m * 2 ^ Z.of_nat a) (2 ^ Z.of_nat b) = (m * 2 ^ (Z.of_nat a - Z.of_nat b), 0)%Z.
Proof.
  intros Hab.
  assert (Hp : (2 ^ Z.of_nat a = 2 ^ (Z.of_nat a - Z.of_nat b) * 2 ^ Z.of_nat b)%Z)
    by (rewrite <- Z.pow_add_r by lia; f_equal; lia).
  assert (Hb : (2 ^ Z.of_nat b > 0)%Z) by (apply Z.lt_gt, Z.pow_pos_nonneg; lia).
  pose proof (Z_div_mod (m * 2 ^ Z.of_nat a) _ Hb) as Hs.
  destruct (Z.div_eucl _ _) as [q r] eqn:E.
  assert (Hq : q = (m * 2 ^ Z.of_nat a / 2 ^ Z.of_nat b)%Z) by (unfold Z.div; rewrite E; reflexivity).
  assert (Hr : r = (m * 2 ^ Z.of_nat a mod 2 ^ Z.of_nat b)%Z) by (unfold Z.modulo; rewrite E; reflexivity).
  rewrite Hp, Z.mul_assoc in Hq, Hr. rewrite Z.div_mul in Hq by lia. rewrite Z.mod_mul in Hr by lia.
  subst. reflexivity.
Qed.

Lemma round_aux_shift1 (s : bool) (m : positive) (e : Z) :
  fexp 53 1024 (Zpos (digits2_pos m) + e) = e -> (e <= 971)%Z ->
  binary_round_aux 53 1024 s (Zpos (xO m)) (e - 1) loc_Exact = S754_finite s m e.
Proof.
  intros Hc Hb. unfold binary_round_aux, shr_fexp. cbn [shr_record_of_loc Zdigits2].
  change (xO m) with (Nat.iter 1 xO m). rewrite digits_iter_xO.
  replace (Zpos (digits2_pos m) + Z.of_nat 1 + (e - 1))%Z with (Zpos (digits2_pos m) + e)%Z by lia.
  rewrite Hc. replace (e - (e - 1))%Z with 1%Z by lia. change (Nat.iter 1 xO m) with (xO m).
  cbn [shr SpecFloat.iter_pos Nat.iter shr_1 shr_m loc_of_shr_record round_nearest_even orb Zdigits2].
  replace (e - 1 + 1)%Z with e by lia.
  rewrite Hc, Z.sub_diag. cbn [shr shr_m].
  replace (e <=? 1024 - 53)%Z with true by (symmetry; apply Z.leb_le; lia). reflexivity.
Qed.

Lemma ddiv_one (x : double) : d_valid x = true -> ddiv x (d_of_Z 1) = x.
Proof.
  intros Hv. change (d_of_Z 1) with (S754_finite false 4503599627370496 (-52)).
  destruct x as [s|s| |s m e]; try (unfold ddiv, SFdiv; rewrite ?xorb_false_r; reflexivity).
  apply valid_iff in Hv as [Hc Hb].
  pose proof (digits_bounds m) as [Hl Hu].
  unfold ddiv, SFdiv, SFdiv_core_binary. rewrite xorb_false_r. cbn [Zdigits2].
  change (Zpos (digits2_pos 4503599627370496)) with 53%Z.
  change 4503599627370496%Z with (2 ^ Z.of_nat 52)%Z.
  set (d := Zpos (digits2_pos m)) in *. rewrite fexp_val in Hc. rewrite (fexp_val (d + e - _)).
  assert (Hd53 : (d <= 53)%Z) by lia.
  destruct (Z.eq_dec d 53) as [Hd|Hd]; [destruct (Z.eq_dec e (-1074)) as [He|He]|].
  2: { replace (Z.min (Z.max (d + e - (53 + -52) - 53) (-1074)) (e - -52)) with (e - 1)%Z by lia.
       replace (e - -52 - (e - 1))%Z with 53%Z by lia. cbv iota beta.
       rewrite Z.shiftl_mul_pow2 by lia. change (2 ^ 53)%Z with (2 ^ Z.of_nat 53)%Z.
       rewrite div_eucl_pow by lia.
       change (Z.of_nat 53 - Z.of_nat 52)%Z with 1%Z. rewrite Z.pow_1_r.
       rewrite Z.mul_comm, <- Pos2Z.inj_xO.
       change (new_location (2 ^ Z.of_nat 52) 0) with loc_Exact.
       apply round_aux_shift1; [fold d; rewrite fexp_val; lia | lia]. }
  all: replace (Z.min (Z.max (d + e - (53 + -52) - 53) (-1074)) (e - -52)) with e by lia;
       replace (e - -52 - e)%Z with 52%Z by lia; cbv iota beta;
       rewrite Z.shiftl_mul_pow2 by lia; change (2 ^ 52)%Z with (2 ^ Z.of_nat 52)%Z;
       rewrite div_eucl_pow by lia;
       rewrite Z.sub_diag, Z.pow_0_r, Z.mul_1_r;
       change (new_location (2 ^ Z.of_nat 52) 0) with loc_Exact;
       apply round_aux_exact; [fold d; rewrite fexp_val; lia | lia].
Qed.


Lemma valid_mant (s : bool) (m : positive) (e : Z) :
  d_valid (S754_finite s m e) = true -> (Zpos m < 2 ^ 53)%Z.
Proof.
  intros Hv. apply valid_iff in Hv as [Hc _]. rewrite fexp_val in Hc.
  pose proof (digits_bounds m) as [_ Hu].
  assert (2 ^ Zpos (digits2_pos m) <= 2 ^ 53)%Z by (apply Z.pow_le_mono_r; lia). lia.
Qed.

Lemma d_of_Z_valid (z : Z) : (- 2 ^ 53 < z < 2 ^ 53)%Z -> d_valid (d_of_Z z) = true.
Proof.
  intros Hz. unfold d_of_Z, binary_normalize. destruct z as [|p|p]; [reflexivity| |].
  - destruct (d_of_Z_pos false p) as [m' [e' [-> Hv]]]; [lia | exact Hv].
  - destruct (d_of_Z_pos true p) as [m' [e' [-> Hv]]]; [lia | exact Hv].
Qed.

Lemma js_floor_valid (x : double) : d_valid x = true -> d_valid (js_floor x) = true.
Proof.
  intros Hv. destruct x as [s|s| |s m e]; try exact Hv. unfold js_floor.
  destruct (Z.leb_spec 0 e) as [He|He]; [exact Hv|].
  pose proof (valid_mant _ _ _ Hv) as Hm.
  destruct (Z.eqb_spec (Z.shiftr (cond_Zopp s (Zpos m)) (- e)) 0); [reflexivity|].
  apply d_of_Z_valid. rewrite Z.shiftr_div_pow2 by lia.
  assert (Hp : (2 <= 2 ^ (- e))%Z).
  { change 2%Z with (2 ^ 1)%Z at 1. apply Z.pow_le_mono_r; lia. }
  pose proof (Z.div_mod (cond_Zopp s (Zpos m)) (2 ^ (- e)) ltac:(lia)) as Hd.
  pose proof (Z.mod_pos_bound (cond_Zopp s (Zpos m)) (2 ^ (- e)) ltac:(lia)) as Hr.
  destruct s; cbn [cond_Zopp] in *; nia.
Qed.

(** Signs: a non-negative mantissa rounds to a non-negative double. *)









End Doubles.

(** ** Binance's getPrecision and round over doubles *)












Lemma str_includes_cons (c : ascii) (s p : string) :
  str_includes s p = true -> str_includes (String c s) p = true.
Proof. intros H. simpl. rewrite H. apply orb_true_r. Qed.

Lemma str_includes_drop (s : string) (a : ascii) (p : string) :
  str_includes s (String a p) = true -> str_includes s p = true.
Proof.
  induction s as [|c s IH]; simpl; [discriminate|].
  intros H. apply orb_true_iff in H as [H|H].
  - apply andb_true_iff in H as [_ H]. apply str_includes_cons.
    destruct s; simpl; rewrite H; reflexivity.
  - apply str_includes_cons. exact (IH H).
Qed.

Lemma array_length_truthy (o : jsval) (os : list jsval) :
  truthy (prop (JArr (o :: os)) "length") = true.
Proof.
  cbn [prop String.eqb Ascii.eqb Bool.eqb andb truthy].
  destruct (Qeq_bool _ 0) eqn:E; [|reflexivity].
  apply Qeq_bool_eq in E. change 0 with (inject_Z 0) in E.
  apply inject_Z_injective in E. cbn [length Z.of_nat] in E. discriminate E.
Qed.









(** Extra (processResponse).  The classification schedules findLastTrade
    instead of calling [next] exactly on the placement path ([fn] is
    ['order']) for an error whose message contains ETIMEDOUT; the error it
    keeps is then marked [notFatal]. *)
Theorem processResponse_defers_only_on_order_timeout (fn : option string) (err : option string)
  (data : jsval) (e : jserror) :
  processResponse fn err data = PFindLastTrade e <->
  fn = Some "order" /\
  exists e0 d, raw_error err data = (Some e0, d) /\
    str_includes (message e0) "ETIMEDOUT" = true /\ e = mkError (message e0) true.
Proof.
  unfold processResponse. destruct (raw_error err data) as [[[m nf]|] d] eqn:Hr.
  2:{ simpl. split; [discriminate|]. intros [_ [e0 [d' [H _]]]]. discriminate H. }
  unfold classify. cbn [message notFatal].
  destruct fn as [f|].
  2:{ cbn [fn_is andb]. split; [destruct (includes m recoverableErrors); discriminate|].
      intros [H _]; discriminate H. }
  cbn [fn_is].
  destruct (String.eqb f "order") eqn:Eo.
  - apply String.eqb_eq in Eo. subst f. cbn [String.eqb Ascii.eqb Bool.eqb andb].
    unfold unknownResultErrors.
    assert (Hinc : includes m ["ETIMEDOUT"] = str_includes m "ETIMEDOUT")
      by (unfold includes; simpl; apply orb_false_r).
    destruct (str_includes m "ETIMEDOUT") eqn:Et.
    + assert (Hrec : includes m recoverableErrors = true).
      { apply existsb_exists. exists "TIMEDOUT". split; [simpl; auto|].
        exact (str_includes_drop _ _ _ Et). }
      rewrite Hrec. cbn [message]. rewrite Hinc. split.
      * intros H. injection H as <-. split; [reflexivity|].
        exists (mkError m nf), d. auto.
      * intros [_ [e0 [d' [H [_ He]]]]]. injection H as <- _. subst e. reflexivity.
    + destruct (includes m recoverableErrors); cbn [message]; rewrite Hinc; split;
        try discriminate;
        intros [_ [e0 [d' [H [H2 _]]]]]; injection H as <- _; cbn [message] in H2; congruence.
  - split.
    + destruct (String.eqb f "getOrder" && _); [discriminate|].
      destruct (String.eqb f "cancelOrder" && _); [discriminate|].
      cbn [andb]. discriminate.
    + intros [H _]. injection H as ->. discriminate Eo.
Qed.

(** Case analysis on the operation-specific branches of [classify]. *)
Ltac fn_cases fn :=
  destruct (fn_is fn "getOrder"), (fn_is fn "cancelOrder"), (fn_is fn "order").

(** Extra (processResponse).  With no transport error, a falsy body gives
    the retryable error "Empty response" on every path, and the body is
    passed on unchanged. *)
Theorem processResponse_empty_body (fn : option string) (d : jsval) :
  truthy d = false ->
  processResponse fn None d = PNext (Some (mkError "Empty response" true)) d.
Proof.
  intros Hd. unfold processResponse, raw_error. rewrite Hd. cbn [negb].
  unfold classify. cbn [message]. fn_cases fn; vm_compute; reflexivity.
Qed.

(** Extra (processResponse).  A truthy body that is not a string is passed
    on unchanged when its [error] field is falsy; when it is truthy, and no
    operation-specific override applies, the error's message is
    [String(data.error)], retryable exactly when it contains an entry of the
    table, and the body is still passed on. *)
Theorem processResponse_object_body (fn : option string) (d : jsval) :
  truthy d = true -> (forall s, d <> JStr s) ->
  (truthy (prop d "error") = false -> processResponse fn None d = PNext None d) /\
  (truthy (prop d "error") = true ->
   Spec.override fn (js_string (prop d "error")) = false ->
   processResponse fn None d =
     PNext (Some (mkError (js_string (prop d "error"))
                          (includes (js_string (prop d "error")) recoverableErrors))) d).
Proof.
  intros Ht Hs.
  assert (Hinc : forall l, includes_val d l = false).
  { intros l. destruct d; try reflexivity. exfalso. exact (Hs s eq_refl). }
  split.
  - intros He. unfold processResponse, raw_error. rewrite Ht, He, !Hinc. reflexivity.
  - intros He Hov.
    apply (classify_no_override fn None d (mkError (js_string (prop d "error")) false) d);
      [|exact Hov].
    unfold raw_error. rewrite Ht, He. reflexivity.
Qed.

(** A string containing a non-empty string is not empty. *)
Lemma str_includes_nonempty (s : string) (a : ascii) (p : string) :
  str_includes s (String a p) = true -> String.eqb s "" = false.
Proof. destruct s; [discriminate | reflexivity]. Qed.

(** [includes] of a string with a one-entry list. *)
Lemma includes_val_one (s p : string) :
  includes_val (JStr s) [p] = str_includes s p.
Proof. unfold includes_val, includes. simpl. apply orb_false_r. Qed.

(** The error built from a non-empty string body (lines 63-76). *)
Lemma raw_error_string (s : string) :
  String.eqb s "" = false ->
  raw_error None (JStr s) =
    if str_includes s "Please complete the security check to proceed." then
      (Some (mkError cloudflareMessage false), JUndef)
    else if str_includes s "Please try again in a few minutes." then
      (Some (mkError "Please try again in a few minutes." true), JUndef)
    else if str_includes s "<!DOCTYPE html>" then
      (Some (mkError s false), JUndef)
    else (None, JStr s).
Proof.
  intros Hs. unfold raw_error. cbn [truthy]. rewrite Hs. cbn [negb].
  cbn [prop String.eqb Ascii.eqb Bool.eqb andb truthy]. rewrite !includes_val_one.
  reflexivity.
Qed.

(** Extra (processResponse).  A string body containing CloudFlare's
    "Please complete the security check to proceed." becomes the fatal
    CloudFlare error; otherwise one containing "Please try again in a few
    minutes." becomes that retryable error; otherwise an HTML page
    becomes an error whose message is the page, retryable exactly when it
    contains an entry of the table (no override applying); in these three
    cases the data is dropped.  Any other non-empty string is passed on
    as data. *)
Theorem processResponse_string_bodies (fn : option string) (s : string) :
  (str_includes s "Please complete the security check to proceed." = true ->
   processResponse fn None (JStr s) = PNext (Some (mkError cloudflareMessage false)) JUndef) /\
  (str_includes s "Please complete the security check to proceed." = false ->
   str_includes s "Please try again in a few minutes." = true ->
   processResponse fn None (JStr s) =
     PNext (Some (mkError "Please try again in a few minutes." true)) JUndef) /\
  (str_includes s "Please complete the security check to proceed." = false ->
   str_includes s "Please try again in a few minutes." = false ->
   str_includes s "<!DOCTYPE html>" = true ->
   Spec.override fn s = false ->
   processResponse fn None (JStr s) =
     PNext (Some (mkError s (includes s recoverableErrors))) JUndef) /\
  (str_includes s "Please complete the security check to proceed." = false ->
   str_includes s "Please try again in a few minutes." = false ->
   str_includes s "<!DOCTYPE html>" = false ->
   s <> "" ->
   processResponse fn None (JStr s) = PNext None (JStr s)).
Proof.
  split; [|split; [|split]].
  - intros Hc. unfold processResponse.
    rewrite (raw_error_string s (str_includes_nonempty _ _ _ Hc)), Hc.
    unfold classify. fn_cases fn; vm_compute; reflexivity.
  - intros Hc Ht. unfold processResponse.
    rewrite (raw_error_string s (str_includes_nonempty _ _ _ Ht)), Hc, Ht.
    unfold classify. fn_cases fn; vm_compute; reflexivity.
  - intros Hc Ht Hh Hov.
    apply (classify_no_override fn None (JStr s) (mkError s false) JUndef); [|exact Hov].
    rewrite (raw_error_string s (str_includes_nonempty _ _ _ Hh)), Hc, Ht, Hh. reflexivity.
  - intros Hc Ht Hh Hne. unfold processResponse.
    rewrite raw_error_string by (apply String.eqb_neq; exact Hne).
    rewrite Hc, Ht, Hh. reflexivity.
Qed.

(** Extra (findLastTrade).  When the open-order query fails with a
    non-retryable error, the [handle] calls the unbound [next]: a
    ReferenceError escapes and the callback is never invoked. *)
Theorem findLastTrade_query_error_throws (utc_ms : jsval -> option Z) (clock : nat -> Z)
  (open_resp : nat -> nat -> option string * jsval) (query_retries k : nat) (since : Z)
  (callback : cont) (e : jserror) (d : jsval) :
  raw_error (fst (open_resp k 0%nat)) (snd (open_resp k 0%nat)) = (Some e, d) ->
  includes (message e) recoverableErrors = false ->
  findLastTrade utc_ms clock open_resp query_retries k since callback =
    [ECall "returnOpenOrders" 0; EThrow "ReferenceError: next is not defined"].
Proof.
  intros Hr Hrec. unfold findLastTrade.
  rewrite (request_first _ _ _ _ _ (Some (mkError (message e) false)) d).
  - reflexivity.
  - rewrite (classify_no_override None _ _ e d Hr eq_refl), Hrec. reflexivity.
  - reflexivity.
Qed.

(** Extra (findLastTrade).  For an empty open-order list the callback is
    invoked twice, both times with an undefined result (the [return] after
    the first call is missing). *)
Theorem findLastTrade_empty_calls_back_twice (utc_ms : jsval -> option Z) (clock : nat -> Z)
  (open_resp : nat -> nat -> option string * jsval) (query_retries k : nat) (since : Z)
  (callback : cont) :
  open_resp k 0%nat = (None, JArr []) ->
  findLastTrade utc_ms clock open_resp query_retries k since callback =
    ECall "returnOpenOrders" 0 :: app (callback None JUndef) (callback None JUndef).
Proof.
  intros Ho. unfold findLastTrade.
  rewrite (request_first _ _ _ _ _ None (JArr [])).
  - unfold findLastTrade_handle. cbn [prop String.eqb Ascii.eqb Bool.eqb andb].
    replace (truthy _) with false by reflexivity.
    destruct (Z.eqb since 0); reflexivity.
  - rewrite Ho. reflexivity.
  - exact I.
Qed.

(** Extra (getTicker).  The ticker is read under the key
    [currency_asset]: when the response has no such entry the [handle]
    throws a TypeError instead of calling back; for an entry object the
    callback gets [bid = parseFloat(highestBid)] and
    [ask = parseFloat(lowestAsk)]. *)
Theorem getTicker_reads_pair (currency asset : string) (n : nat)
  (resp : nat -> option string * jsval) (d : jsval) :
  raw_error (fst (resp 0%nat)) (snd (resp 0%nat)) = (None, d) ->
  (prop d (pair currency asset) = JUndef ->
   getTicker currency asset n resp =
     [ECall "getTicker" 0; EThrow "TypeError: Cannot read properties of undefined"]) /\
  (forall kvs, prop d (pair currency asset) = JObj kvs ->
   getTicker currency asset n resp =
     [ECall "getTicker" 0;
      EOk (JObj [("bid", JNum (parseFloat (prop (JObj kvs) "highestBid")));
                 ("ask", JNum (parseFloat (prop (JObj kvs) "lowestAsk")))])]).
Proof.
  intros Hr. unfold getTicker.
  rewrite (request_first _ _ _ _ _ None d) by first [exact I | unfold processResponse; rewrite Hr; reflexivity].
  split.
  - intros Hp. unfold getTicker_handle. rewrite Hp. reflexivity.
  - intros kvs Hp. unfold getTicker_handle. rewrite Hp. reflexivity.
Qed.

(** Extra (getFee).  The fee is [parseFloat(data.makerFee)], delivered as a
    success; a response without [makerFee] yields NaN, not an error. *)
Theorem getFee_missing_makerFee_is_NaN (n : nat) (resp : nat -> option string * jsval) (d : jsval) :
  raw_error (fst (resp 0%nat)) (snd (resp 0%nat)) = (None, d) ->
  getFee n resp = [ECall "returnFeeInfo" 0; EOk (JNum (parseFloat (prop d "makerFee")))] /\
  (prop d "makerFee" = JUndef -> getFee n resp = [ECall "returnFeeInfo" 0; EOk (JNum NaN)]).
Proof.
  intros Hr. unfold getFee.
  rewrite (request_first _ _ _ _ _ None d) by first [exact I | unfold processResponse; rewrite Hr; reflexivity].
  split; [reflexivity|]. intros Hp. unfold getFee_handle. rewrite Hp. reflexivity.
Qed.

(** [no_callback] over a concatenation. *)
Lemma no_callback_app (l1 l2 : list event) :
  no_callback (app l1 l2) = no_callback l1 && no_callback l2.
Proof. unfold no_callback. apply forallb_app. Qed.

(** The retry wrapper invokes no callback of its own: its trace has none
    when the attempts and the handle have none. *)
Lemma retry_no_callback (attempt : nat -> cont -> list event) (handle : cont) :
  (forall j next, (forall e d, no_callback (next e d) = true) ->
     no_callback (attempt j next) = true) ->
  (forall e d, no_callback (handle e d) = true) ->
  forall n k, no_callback (retry n k attempt handle) = true.
Proof.
  intros Ha Hh n. induction n as [|n IH]; intros k; cbn [retry]; apply Ha;
  intros [e|] d; try apply Hh.
  - destruct (notFatal e); apply Hh.
  - destruct (notFatal e); [exact (IH (S k)) | apply Hh].
Qed.

(** [respond] adds no callback of its own. *)
Lemma respond_no_callback (fn : option string) (raw : option string * jsval)
  (next : cont) (defer : jserror -> list event) :
  (forall e d, no_callback (next e d) = true) ->
  (forall e, no_callback (defer e) = true) ->
  no_callback (respond fn raw next defer) = true.
Proof. intros Hn Hd. unfold respond. destruct (processResponse _ _ _); auto. Qed.

(** findLastTrade invokes no callback besides the one it is given. *)
Lemma findLastTrade_no_callback (utc_ms : jsval -> option Z) (clock : nat -> Z)
  (open_resp : nat -> nat -> option string * jsval) (query_retries k : nat) (since : Z)
  (callback : cont) :
  (forall e d, no_callback (callback e d) = true) ->
  no_callback (findLastTrade utc_ms clock open_resp query_retries k since callback) = true.
Proof.
  intros Hc. unfold findLastTrade, request. apply retry_no_callback.
  - intros j next Hn. cbn [no_callback forallb]. apply respond_no_callback; [exact Hn|].
    intros _. reflexivity.
  - intros [e|] d; unfold findLastTrade_handle; [reflexivity|].
    rewrite no_callback_app. destruct (truthy (prop d "length")); rewrite !Hc; reflexivity.
Qed.

(** Extra (getTrades).  getTrades never invokes its callback, whatever the
    trade-history response.  With the methods bound to the instance, right
    after the returnTradeHistory request it submits a sell order to the
    exchange; without, a TypeError escapes before any sell request.  The
    trace has no callback invocation at all. *)
Theorem getTrades_sells_without_callback (utc_ms : jsval -> option Z) (clock : nat -> Z)
  (checkInterval : jsval) (place_resp : nat -> option string * jsval)
  (open_resp : nat -> nat -> option string * jsval) (place_retries query_retries : nat)
  (bound : bool) (trade_resp : option string * jsval) :
  let t := getTrades utc_ms clock checkInterval place_resp open_resp place_retries
             query_retries bound trade_resp in
  (bound = true -> exists rest, t = ECall "returnTradeHistory" 0 :: ECall "sell" 0 :: rest) /\
  (bound = false ->
     t = [ECall "returnTradeHistory" 0;
          EThrow "TypeError: Cannot read properties of undefined (reading 'sell')"]) /\
  no_callback t = true.
Proof.
  intros t. subst t. unfold getTrades.
  destruct (processResponse None (fst trade_resp) (snd trade_resp)) as [e d|e] eqn:Hp.
  2:{ exfalso. unfold processResponse in Hp.
      exact (classify_not_order None _ e eq_refl Hp). }
  split; [|split].
  - intros ->. rewrite retry_step. unfold place_attempt at 1. eexists. reflexivity.
  - intros ->. reflexivity.
  - destruct bound; [|reflexivity].
    cbn [no_callback forallb]. apply retry_no_callback.
    + intros j next Hn. unfold place_attempt. cbn [forallb].
      apply respond_no_callback; [exact Hn|].
      intros er. cbn [forallb]. apply findLastTrade_no_callback.
      intros e' d'. destruct (truthy d'); apply Hn.
    + intros [e'|] d'; reflexivity.
Qed.


(** Extra (Binance handleResponse).  A response body with a truthy [code]
    is turned into the error [Error <code>: <msg>] (replacing any transport
    error); it is a RetryError exactly when that message contains one of
    the recoverable signatures, and an AbortError otherwise.  checkOrder,
    addOrder, getOrder, getPortfolio and getTicker then hand that error to
    their callback, without reading the body. *)
Theorem binance_error_code_bodies (moment : jsval -> jsval) (err : option string)
  (body order : jsval) (asset currency pair : string) :
  truthy body = true -> truthy (prop body "code") = true ->
  let m := "Error " ++ js_string (prop body "code") ++ ": " ++ js_string (prop body "msg") in
  let x := if existsb (str_includes m) Binance.recoverableErrors
           then Binance.RetryError ("[binance.js] " ++ m) else Binance.AbortError ("[binance.js] " ++ m) in
  Binance.handleResponse err body = (Some x, body) /\
  Binance.checkOrder_check (Some x) body = Binance.BErr x /\
  Binance.setOrder (Some x) body = Binance.RErr (Binance.ExchError x) /\
  Binance.getOrder_get moment order (Some x) body = Binance.RErr (Binance.ExchError x) /\
  Binance.setBalance asset currency (Some x) body = Binance.RErr (Binance.ExchError x) /\
  Binance.setTicker pair (Some x) body = Binance.RErr (Binance.ExchError x).
Proof.
  intros Hb Hc m x.
  split; [|repeat split; reflexivity].
  unfold Binance.handleResponse. rewrite Hb, Hc. cbn [andb]. fold m.
  assert (Hne : String.eqb m "" = false) by reflexivity.
  unfold Binance.processError. rewrite Hne. cbn [orb].
  subst x. destruct (existsb (str_includes m) Binance.recoverableErrors); reflexivity.
Qed.

(** Extra (Binance cancelOrder).  cancelOrder reports [true] (already
    filled) when there is an error, from the transport or from a body
    [code], and the body's [msg] is UNKNOWN_ORDER; it reports [false] when
    there is neither; every other error is handed to the callback. *)
Theorem binance_cancel_outcomes :
  (forall err body,
     truthy body = true ->
     strict_eq (prop body "msg") (JStr "UNKNOWN_ORDER") = true ->
     (err <> None \/ truthy (prop body "code") = true) ->
     let '(e, d) := Binance.handleResponse err body in Binance.cancel_handle e d = Binance.ROk (JBool true)) /\
  (forall body,
     truthy body && truthy (prop body "code") = false ->
     let '(e, d) := Binance.handleResponse None body in Binance.cancel_handle e d = Binance.ROk (JBool false)) /\
  (forall err body,
     truthy body && strict_eq (prop body "msg") (JStr "UNKNOWN_ORDER") = false ->
     (err <> None \/ truthy (prop body "code") = true) ->
     exists x, Binance.handleResponse err body = (Some x, body) /\
       (let '(e, d) := Binance.handleResponse err body in Binance.cancel_handle e d) =
         Binance.RErr (Binance.ExchError x)).
Proof.
  assert (Hsome : forall err body,
            (err <> None \/ truthy (prop body "code") = true) ->
            truthy body = true ->
            exists x, Binance.handleResponse err body = (Some x, body)).
  { intros err body Hor Hb. unfold Binance.handleResponse. rewrite Hb. cbn [andb].
    destruct (truthy (prop body "code")).
    - unfold Binance.processError.
      destruct (_ || _); eexists; reflexivity.
    - destruct err as [m|]; [|destruct Hor as [H|H]; [congruence|discriminate]].
      unfold Binance.processError. destruct (_ || _); eexists; reflexivity. }
  split; [|split].
  - intros err body Hb Hm Hor. destruct (Hsome err body Hor Hb) as [x Hx]. rewrite Hx.
    unfold Binance.cancel_handle. rewrite Hb, Hm. reflexivity.
  - intros body Hbc. unfold Binance.handleResponse. rewrite Hbc. reflexivity.
  - intros err body Hbm Hor.
    destruct (truthy body) eqn:Hb.
    + destruct (Hsome err body Hor Hb) as [x Hx]. exists x. rewrite Hx.
      split; [reflexivity|]. unfold Binance.cancel_handle. rewrite Hb.
      rewrite Hbm. reflexivity.
    + assert (Hc : truthy (prop body "code") = false)
        by (destruct body; try discriminate; simpl; try reflexivity;
            destruct (String.eqb "code" "length"); reflexivity).
      destruct err as [m|]; [|destruct Hor as [H|H]; [congruence|congruence]].
      unfold Binance.handleResponse. rewrite Hb. cbn [andb].
      unfold Binance.processError. unfold Binance.cancel_handle. rewrite Hb. cbn [andb].
      destruct (_ || _); eexists; split; reflexivity.
Qed.

(** An element with a matching field is neither undefined nor null. *)
Lemma strict_eq_not_undef (a : jsval) (k s : string) :
  strict_eq (prop a k) (JStr s) = true -> a <> JUndef /\ a <> JNull.
Proof. intros H. split; intros ->; discriminate H. Qed.

(** Extra (Binance getPortfolio).  When both balances are present,
    getPortfolio reports their parsed [free] amounts, asset first; if
    either does not parse (NaN) it does not report 0 but throws, since the
    amounts are constants. *)
Theorem binance_portfolio_throws_on_bad_balance (asset currency : string) (data a c : jsval) :
  find_by strict_eq "asset" (JStr asset) (collection (prop data "balances")) = Some a ->
  find_by strict_eq "asset" (JStr currency) (collection (prop data "balances")) = Some c ->
  strict_eq (prop a "asset") (JStr asset) = true ->
  strict_eq (prop c "asset") (JStr currency) = true ->
  Binance.setBalance asset currency None data =
    match parseFloat (prop a "free"), parseFloat (prop c "free") with
    | Num qa, Num qc =>
        Binance.ROk (JArr [JObj [("name", JStr asset); ("amount", JNum (Num qa))];
                     JObj [("name", JStr currency); ("amount", JNum (Num qc))]])
    | _, _ => Binance.RThrow "TypeError: Assignment to constant variable."
    end.
Proof.
  intros Ha Hc Hpa Hpc.
  destruct (strict_eq_not_undef _ _ _ Hpa) as [Ha1 Ha2].
  destruct (strict_eq_not_undef _ _ _ Hpc) as [Hc1 Hc2].
  assert (Hd : data <> JUndef /\ data <> JNull).
  { split; intros ->; simpl in Ha; injection Ha as <-; congruence. }
  unfold Binance.setBalance. destruct Hd as [Hd1 Hd2].
  destruct data; try congruence;
  rewrite Ha; (destruct a; try congruence); rewrite Hc; (destruct c; try congruence);
  repeat match goal with |- context [parseFloat ?x] => destruct (parseFloat x) end;
  reflexivity.
Qed.


(** Extra (Binance getOrder).  getOrder reports the first trade whose
    [orderId] is loosely equal ([==]) to the requested id (so a numeric
    id matches its decimal string), with that single trade's price,
    quantity, time and commission; when none matches, the callback gets the
    error "Trade not found". *)
Theorem binance_getOrder_first_matching_trade (moment : jsval -> jsval) (order : jsval)
  (xs : list jsval) :
  Forall (skipped Binance.loose_eq "orderId" order) xs ->
  Binance.getOrder_get moment order None (JArr xs) = Binance.RErr (Binance.PlainError "Trade not found") /\
  (forall t ys, truthy t = true -> Binance.loose_eq (prop t "orderId") order = true ->
   Binance.getOrder_get moment order None (JArr (app xs (t :: ys))) =
     Binance.ROk (JObj [("price", JNum (parseFloat (prop t "price")));
                  ("amount", JNum (parseFloat (prop t "qty")));
                  ("date", moment (prop t "time"));
                  ("fees", JObj [(js_string (prop t "commissionAsset"),
                                  JNum (to_number (prop t "commission")))])])).
Proof.
  intros Hs. split.
  - unfold Binance.getOrder_get. cbn [collection]. rewrite find_by_miss by exact Hs. reflexivity.
  - intros t ys Ht He. unfold Binance.getOrder_get. cbn [collection].
    rewrite (find_by_hit _ _ _ xs t ys Hs Ht He), Ht. reflexivity.
Qed.

(** Extra (Binance getTicker).  getTicker reports the ask and bid prices of
    the first ticker whose symbol is the pair; when none matches, the
    callback gets the error "Market <pair> not found on Binance". *)
Theorem binance_getTicker_first_matching_symbol (pair : string) (xs : list jsval) :
  Forall (skipped strict_eq "symbol" (JStr pair)) xs ->
  Binance.setTicker pair None (JArr xs) =
    Binance.RErr (Binance.PlainError ("Market " ++ pair ++ " not found on Binance")) /\
  (forall t ys, truthy t = true -> strict_eq (prop t "symbol") (JStr pair) = true ->
   Binance.setTicker pair None (JArr (app xs (t :: ys))) =
     Binance.ROk (JObj [("ask", JNum (parseFloat (prop t "askPrice")));
                  ("bid", JNum (parseFloat (prop t "bidPrice")))])).
Proof.
  intros Hs. split.
  - unfold Binance.setTicker. cbn [collection]. rewrite find_by_miss by exact Hs. reflexivity.
  - intros t ys Ht He. unfold Binance.setTicker. cbn [collection].
    rewrite (find_by_hit _ _ _ xs t ys Hs Ht He), Ht. reflexivity.
Qed.

(** Extra (Binance round).  For a tick size that does not convert to a
    finite number (e.g. a missing one), getPrecision gives 0, the precision
    is [Math.pow(10, 0) = 1], and round is exactly [Math.floor]: the
    multiplication and the division by 1 are exact in doubles. *)
Theorem binance_round_nonfinite_tick (fuel : nat) (x : double) (tick : jsval) :
  to_number tick = NaN -> d_valid x = true ->
  Binance.getPrecision fuel tick = Some 0%nat /\ Binance.round fuel x tick = Some (js_floor x).
Proof.
  intros Ht Hv. unfold Binance.round, Binance.getPrecision. rewrite Ht. cbn [num_to_double d_is_finite negb].
  split; [reflexivity|]. change (d_of_Z (10 ^ Z.of_nat 0)) with (d_of_Z 1).
  rewrite dmul_one by exact Hv. rewrite ddiv_one by (apply js_floor_valid; exact Hv). reflexivity.
Qed.

(** Extra (Binance isValidPrice, isValidLot).  With the market's minimal
    price (resp. minimal order value) missing, every price (resp. lot) is
    rejected; with numeric bounds and inputs they compare [price >= min]
    and [amount * price >= min]. *)
Theorem binance_isValid_bounds (minimal price amount : jsval) :
  (prop minimal "price" = JUndef -> Binance.isValidPrice minimal price = false) /\
  (prop minimal "order" = JUndef -> Binance.isValidLot minimal price amount = false) /\
  (forall m p, prop minimal "price" = JNum (Num m) ->
     Binance.isValidPrice minimal (JNum (Num p)) = Qle_bool m p) /\
  (forall m p a, prop minimal "order" = JNum (Num m) ->
     Binance.isValidLot minimal (JNum (Num p)) (JNum (Num a)) = Qle_bool m (a * p)).
Proof.
  split; [|split; [|split]].
  - intros H. unfold Binance.isValidPrice, Binance.js_ge. rewrite H. cbn [Binance.to_primitive to_number].
    destruct (Binance.to_primitive price); try reflexivity;
    match goal with |- match ?n with NaN => _ | Num _ => _ end = _ => destruct n end; reflexivity.
  - intros H. unfold Binance.isValidLot, Binance.js_ge. rewrite H. cbn [Binance.to_primitive to_number].
    destruct (num_mul _ _); reflexivity.
  - intros m p H. unfold Binance.isValidPrice, Binance.js_ge. rewrite H. reflexivity.
  - intros m p a H. unfold Binance.isValidLot, Binance.js_ge. rewrite H. reflexivity.
Qed.

(** Witnesses of the extra properties at concrete responses. *)

Lemma processResponse_empty_body_witness :
  truthy JUndef = false /\
  processResponse (Some "order") None JUndef = PNext (Some (mkError "Empty response" true)) JUndef.
Proof.
  split; [reflexivity|]. apply (processResponse_empty_body (Some "order") JUndef). reflexivity.
Defined.

Lemma processResponse_object_body_witness :
  truthy (JObj [("error", JStr "Nonce must be greater than 5")]) = true /\
  (forall s, JObj [("error", JStr "Nonce must be greater than 5")] <> JStr s) /\
  processResponse None None (JObj [("error", JStr "Nonce must be greater than 5")]) =
    PNext (Some (mkError "Nonce must be greater than 5" true))
          (JObj [("error", JStr "Nonce must be greater than 5")]).
Proof.
  assert (Hs : forall s, JObj [("error", JStr "Nonce must be greater than 5")] <> JStr s)
    by (intros s; discriminate).
  split; [reflexivity|]. split; [exact Hs|].
  exact (proj2 (processResponse_object_body None (JObj [("error", JStr "Nonce must be greater than 5")]) eq_refl Hs) eq_refl eq_refl).
Defined.

Lemma findLastTrade_query_error_throws_witness :
  raw_error (Some "Invalid API key/secret pair.") JUndef =
    (Some (mkError "Invalid API key/secret pair." false), JUndef) /\
  includes "Invalid API key/secret pair." recoverableErrors = false /\
  findLastTrade (fun _ => None) (fun _ => 0%Z)
    (fun _ _ => (Some "Invalid API key/secret pair.", JUndef)) 3 0 2
    (fun _ v => [EOk v]) =
    [ECall "returnOpenOrders" 0; EThrow "ReferenceError: next is not defined"].
Proof.
  split; [reflexivity|]. split; [vm_compute; reflexivity|].
  apply (findLastTrade_query_error_throws (fun _ => None) (fun _ => 0%Z)
           (fun _ _ => (Some "Invalid API key/secret pair.", JUndef)) 3 0 2
           (fun _ v => [EOk v]) (mkError "Invalid API key/secret pair." false) JUndef);
    [reflexivity | vm_compute; reflexivity].
Defined.

Lemma findLastTrade_empty_calls_back_twice_witness :
  findLastTrade (fun _ => None) (fun _ => 0%Z) (fun _ _ => (None, JArr [])) 3 0 2
    (fun _ v => [EOk v]) =
    [ECall "returnOpenOrders" 0; EOk JUndef; EOk JUndef].
Proof.
  apply (findLastTrade_empty_calls_back_twice (fun _ => None) (fun _ => 0%Z)
           (fun _ _ => (None, JArr [])) 3 0 2 (fun _ v => [EOk v])).
  reflexivity.
Defined.

Lemma getTicker_reads_pair_witness :
  let d := JObj [("BTC_ETH", JObj [("highestBid", JStr "0.05"); ("lowestAsk", JStr "0.06")])] in
  raw_error None d = (None, d) /\
  getTicker "BTC" "XMR" 0 (fun _ => (None, d)) =
    [ECall "getTicker" 0; EThrow "TypeError: Cannot read properties of undefined"] /\
  getTicker "BTC" "ETH" 0 (fun _ => (None, d)) =
    [ECall "getTicker" 0;
     EOk (JObj [("bid", JNum (parseFloat (JStr "0.05")));
                ("ask", JNum (parseFloat (JStr "0.06")))])].
Proof.
  intros d. split; [reflexivity|]. split.
  - exact (proj1 (getTicker_reads_pair "BTC" "XMR" 0 (fun _ => (None, d)) d eq_refl) eq_refl).
  - exact (proj2 (getTicker_reads_pair "BTC" "ETH" 0 (fun _ => (None, d)) d eq_refl) _ eq_refl).
Defined.

Lemma getFee_missing_makerFee_is_NaN_witness :
  getFee 0 (fun _ => (None, JObj [("takerFee", JStr "0.0025")])) =
    [ECall "returnFeeInfo" 0; EOk (JNum NaN)].
Proof.
  exact (proj2 (getFee_missing_makerFee_is_NaN 0 (fun _ => (None, JObj [("takerFee", JStr "0.0025")]))
                  (JObj [("takerFee", JStr "0.0025")]) eq_refl) eq_refl).
Defined.

Lemma binance_error_code_bodies_witness :
  let body := JObj [("code", JNum (Num (-1021)));
                    ("msg", JStr "Timestamp for this request is outside of the recvWindow.")] in
  Binance.handleResponse None body =
    (Some (Binance.RetryError
       "[binance.js] Error -1021: Timestamp for this request is outside of the recvWindow."),
     body) /\
  Binance.checkOrder_check (fst (Binance.handleResponse None body)) body =
    Binance.BErr (Binance.RetryError
       "[binance.js] Error -1021: Timestamp for this request is outside of the recvWindow.").
Proof.
  intros body.
  pose proof (binance_error_code_bodies (fun v => v) None body JUndef "BTC" "ETH" "ETHBTC"
                eq_refl eq_refl) as [H1 [H2 _]].
  vm_compute in H1. vm_compute in H2. vm_compute. split; [exact H1 | exact H2].
Defined.

Lemma binance_portfolio_throws_on_bad_balance_witness :
  let a := JObj [("asset", JStr "ETH"); ("free", JStr "")] in
  let c := JObj [("asset", JStr "BTC"); ("free", JStr "0.5")] in
  let data := JObj [("balances", JArr [c; a])] in
  Binance.setBalance "ETH" "BTC" None data =
    Binance.RThrow "TypeError: Assignment to constant variable.".
Proof.
  intros a c data.
  etransitivity;
    [exact (binance_portfolio_throws_on_bad_balance "ETH" "BTC" data a c
              eq_refl eq_refl eq_refl eq_refl)|].
  vm_compute. reflexivity.
Defined.

Lemma binance_getOrder_first_matching_trade_witness :
  let x := JObj [("orderId", JNum (Num 7))] in
  let t := JObj [("orderId", JNum (Num 42)); ("price", JStr "10"); ("qty", JStr "1");
                 ("time", JNum (Num 1500000000000)); ("commissionAsset", JStr "BNB");
                 ("commission", JStr "0.001")] in
  let t2 := JObj [("orderId", JNum (Num 42)); ("price", JStr "20"); ("qty", JStr "3")] in
  Binance.getOrder_get (fun v => v) (JStr "42") None (JArr [x]) =
    Binance.RErr (Binance.PlainError "Trade not found") /\
  Binance.getOrder_get (fun v => v) (JStr "42") None (JArr [x; t; t2]) =
    Binance.ROk (JObj [("price", JNum (parseFloat (JStr "10")));
                       ("amount", JNum (parseFloat (JStr "1")));
                       ("date", JNum (Num 1500000000000));
                       ("fees", JObj [("BNB", JNum (to_number (JStr "0.001")))])]).
Proof.
  intros x t t2.
  assert (Hs : Forall (skipped Binance.loose_eq "orderId" (JStr "42")) [x]).
  { constructor; [|constructor]. split; [discriminate|]. split; [discriminate|].
    vm_compute. reflexivity. }
  pose proof (binance_getOrder_first_matching_trade (fun v => v) (JStr "42") [x] Hs) as [H1 H2].
  split; [exact H1|].
  exact (H2 t [t2] eq_refl ltac:(vm_compute; reflexivity)).
Defined.

Lemma binance_getTicker_first_matching_symbol_witness :
  let x := JObj [("symbol", JStr "LTCBTC"); ("askPrice", JStr "0.009")] in
  let t := JObj [("symbol", JStr "ETHBTC"); ("askPrice", JStr "0.071"); ("bidPrice", JStr "0.070")] in
  Binance.setTicker "XMRBTC" None (JArr [x]) =
    Binance.RErr (Binance.PlainError "Market XMRBTC not found on Binance") /\
  Binance.setTicker "ETHBTC" None (JArr [x; t]) =
    Binance.ROk (JObj [("ask", JNum (parseFloat (JStr "0.071")));
                       ("bid", JNum (parseFloat (JStr "0.070")))]).
Proof.
  intros x t.
  assert (Hs : forall p, String.eqb "LTCBTC" p = false ->
             Forall (skipped strict_eq "symbol" (JStr p)) [x]).
  { intros p Hp. constructor; [|constructor]. split; [discriminate|]. split; [discriminate|].
    exact Hp. }
  split.
  - exact (proj1 (binance_getTicker_first_matching_symbol "XMRBTC" [x] (Hs "XMRBTC" eq_refl))).
  - exact (proj2 (binance_getTicker_first_matching_symbol "ETHBTC" [x] (Hs "ETHBTC" eq_refl))
             t [] eq_refl eq_refl).
Defined.

Lemma binance_round_nonfinite_tick_witness :
  to_number JUndef = NaN /\ d_valid (d_of_Q (Qmake 37 10)) = true /\
  js_floor (d_of_Q (Qmake 37 10)) = d_of_Z 3 /\
  (Binance.getPrecision 10 JUndef = Some 0%nat /\
   Binance.round 10 (d_of_Q (Qmake 37 10)) JUndef = Some (js_floor (d_of_Q (Qmake 37 10)))).
Proof.
  assert (Hv : d_valid (d_of_Q (Qmake 37 10)) = true) by (vm_compute; reflexivity).
  split; [reflexivity|]. split; [exact Hv|]. split; [vm_compute; reflexivity|].
  exact (binance_round_nonfinite_tick 10 _ JUndef eq_refl Hv).
Defined.
